(** * Ticket_Master.py: the date normaliser and the pagination exporter

    A shallow embedding of [src/Ticket_Master.py].  Python objects decoded
    from JSON are the inductive type [value]; a Python exception is a
    constructor of [exn]; a function that may raise returns [result];
    the exporter, which writes to a file, prints and talks to the HTTP
    transport, lives in a writer-and-error monad [io] whose output is the
    chronological list of its side effects.

    The HTTP transport is a script of responses, consumed one per request.
    A row is recorded as the list of objects handed to [writer.writerow];
    the CSV quoting, the encoding of the file, and failures of the file
    system or of the network are outside the model. *)

From Stdlib Require Import String Ascii List ZArith Bool Lia.
From Stdlib Require Import DecimalString.
From Corelib Require Import PrimFloat.
Import ListNotations.
Set Warnings "-register-all".
Local Open Scope string_scope.
Local Open Scope Z_scope.

(** ** Python values, as [resp.json()] produces them *)

Inductive value : Type :=
| VNone
| VBool (b : bool)
| VInt (n : Z)
| VFloat (f : float)
| VStr (s : string)
| VList (xs : list value)
| VDict (kvs : list (string * value)).

(** The exceptions the modelled code can raise.  [StopIteration] is what a
    scripted transport raises when it is asked for more responses than it
    holds. *)
Inductive exn : Type :=
| AttributeError
| TypeError
| KeyError (key : string)
| JSONDecodeError
| StopIteration
| RuntimeError (msg : string).

Inductive result (A : Type) : Type :=
| Ok (a : A)
| Raise (e : exn).
Arguments Ok {A} a.
Arguments Raise {A} e.

Module Res.

Definition bind {A B} (r : result A) (k : A -> result B) : result B :=
  match r with
  | Ok a => k a
  | Raise e => Raise e
  end.

End Res.

Declare Scope res_scope.
Delimit Scope res_scope with res.
Notation "x <- r ;; k" := (Res.bind r (fun x => k))
  (at level 61, r at next level, right associativity) : res_scope.

(** Truth value of an object, as [if], [while] and [or] test it. *)
Definition truthy (v : value) : bool :=
  match v with
  | VNone => false
  | VBool b => b
  | VInt n => negb (n =? 0)
  | VFloat f => negb (PrimFloat.eqb f PrimFloat.zero)
  | VStr s => negb (String.eqb s "")
  | VList xs => match xs with [] => false | _ => true end
  | VDict kvs => match kvs with [] => false | _ => true end
  end.

(** [a or b] *)
Definition py_or (a b : value) : value := if truthy a then a else b.

(** A dict is an association list in insertion order; the first binding of
    a key is the one the dict holds. *)
Fixpoint lookup (k : string) (kvs : list (string * value)) : option value :=
  match kvs with
  | [] => None
  | (k', v) :: rest => if String.eqb k k' then Some v else lookup k rest
  end.

(** [d.get(k, default)]: only dicts have the method. *)
Definition py_get (d : value) (k : string) (default : value) : result value :=
  match d with
  | VDict kvs =>
      Ok (match lookup k kvs with Some v => v | None => default end)
  | _ => Raise AttributeError
  end.

(** [d[k]] with a string key. *)
Definition py_getitem (d : value) (k : string) : result value :=
  match d with
  | VDict kvs =>
      match lookup k kvs with Some v => Ok v | None => Raise (KeyError k) end
  | _ => Raise TypeError
  end.

(** [k in d], for the containers JSON yields ([in] on a string is substring
    search; there [k] is never the empty string). *)
Fixpoint substring_at (k s : string) : bool :=
  match k, s with
  | EmptyString, _ => true
  | String a k', String b s' => Ascii.eqb a b && substring_at k' s'
  | String _ _, EmptyString => false
  end.

Fixpoint is_substring (k s : string) : bool :=
  substring_at k s ||
  match s with
  | EmptyString => false
  | String _ s' => is_substring k s'
  end.

Definition is_str (k : string) (v : value) : bool :=
  match v with VStr s => String.eqb k s | _ => false end.

Definition py_contains (k : string) (d : value) : result bool :=
  match d with
  | VDict kvs => Ok (match lookup k kvs with Some _ => true | None => false end)
  | VList xs => Ok (existsb (is_str k) xs)
  | VStr s => Ok (is_substring k s)
  | _ => Raise TypeError
  end.

(** [str(n)] for an int, in decimal.  It is applied to the literal 200, to
    a status code and to ints decoded from JSON, all far below the 4300
    digits past which CPython refuses the conversion. *)
Definition str_int (n : Z) : string := NilZero.string_of_int (Z.to_int n).

(** [a == b] where [b] is a string. *)
Definition eq_str (a : value) (b : string) : bool :=
  match a with VStr s => String.eqb s b | _ => false end.

(** [iter(v)], as a [for] statement calls it: the items of a list, the
    keys of a dict, the characters of a string. *)
Fixpoint chars (s : string) : list value :=
  match s with
  | EmptyString => []
  | String c s' => VStr (String c EmptyString) :: chars s'
  end.

Definition dict_keys (kvs : list (string * value)) : list value :=
  map VStr (nodup string_dec (map fst kvs)).

Definition py_iter (v : value) : result (list value) :=
  match v with
  | VList xs => Ok xs
  | VDict kvs => Ok (dict_keys kvs)
  | VStr s => Ok (chars s)
  | _ => Raise TypeError
  end.

(** [d.keys()] *)
Definition py_keys (d : value) : result (list value) :=
  match d with
  | VDict kvs => Ok (dict_keys kvs)
  | _ => Raise AttributeError
  end.

(** ** The parameter builder *)

Definition query : Type := list (string * string).

(** [get_params], lines 21-30; [size] goes through [str]. *)
Definition get_params (api_key startDateTime endDateTime city countryCode : string)
    (size : Z) (sort : string) : query :=
  [ ("apikey", api_key);
    ("city", city);
    ("countryCode", countryCode);
    ("startDateTime", startDateTime);
    ("endDateTime", endDateTime);
    ("size", str_int size);
    ("sort", sort) ].

Record datetime : Type := {
  year : nat; month : nat; day : nat;
  hour : nat; minute : nat; second : nat
}.

Definition digits (n : nat) : string := NilZero.string_of_uint (Nat.to_uint n).

Fixpoint zeros (k : nat) : string :=
  match k with O => "" | S k' => String "0" (zeros k') end.

Definition pad (width n : nat) : string :=
  let s := digits n in zeros (width - String.length s) ++ s.

(** [get_iso_date], line 44: [strftime("%Y-%m-%dT%H:%M:%SZ")].  Month, day,
    hour, minute and second are zero-padded to two digits; the year is
    written as the GNU C library writes [%Y], in plain decimal, which has
    four digits from 1000 on and fewer below (year 999 gives
    ["999-01-01T00:00:00Z"]). *)
Definition get_iso_date (dt : datetime) : string :=
  digits (year dt) ++ "-" ++ pad 2 (month dt) ++ "-" ++ pad 2 (day dt) ++ "T" ++
  pad 2 (hour dt) ++ ":" ++ pad 2 (minute dt) ++ ":" ++ pad 2 (second dt) ++ "Z".

(** ** Side effects *)

(** What [requests.get] returns: the status, the raw body, the final URL
    and what [resp.json()] decodes ([None] when the body is not JSON). *)
Record response : Type := {
  status_code : Z;
  text : string;
  url : string;
  json : option value
}.

Inductive effect : Type :=
| EOpen (path : string)
| EWriteRow (row : list value)
| ERequest (target : value) (params : option query)
| EPrint (args : list value)
| EClose.

Definition trace : Type := list effect.

(** A computation yields the effects it performed, in order, and either a
    value or the exception that ended it. *)
Definition io (A : Type) : Type := (trace * result A)%type.

Module IO.

Definition ret {A} (a : A) : io A := ([], Ok a).

Definition bind {A B} (m : io A) (k : A -> io B) : io B :=
  match m with
  | (t, Ok a) => let (t', r) := k a in ((t ++ t')%list, r)
  | (t, Raise e) => (t, Raise e)
  end.

Definition emit (e : effect) : io unit := ([e], Ok tt).

Definition raise {A} (e : exn) : io A := ([], Raise e).

Definition lift {A} (r : result A) : io A := ([], r).

(** The [with] statement: the file is closed however the body ends. *)
Definition closing {A} (m : io A) : io A :=
  ((fst m ++ [EClose])%list, snd m).

End IO.

Declare Scope io_scope.
Delimit Scope io_scope with io.
Notation "x <- m ;; k" := (IO.bind m (fun x => k))
  (at level 61, m at next level, right associativity) : io_scope.
Notation "m ;; k" := (IO.bind m (fun _ => k))
  (at level 61, right associativity) : io_scope.

(** Projections of a trace. *)
Definition requests_of (t : trace) : list (value * option query) :=
  flat_map (fun e => match e with ERequest u p => [(u, p)] | _ => [] end) t.

Definition rows_of (t : trace) : list (list value) :=
  flat_map (fun e => match e with EWriteRow r => [r] | _ => [] end) t.

Definition opens_of (t : trace) : list string :=
  flat_map (fun e => match e with EOpen p => [p] | _ => [] end) t.

Definition ROOT : string := "https://app.ticketmaster.com/discovery/v2/events.json".

Definition header : list value := [VStr "event_name"; VStr "event_datetime"].

(** [resp.json()] *)
Definition resp_json (resp : response) : result value :=
  match json resp with Some data => Ok data | None => Raise JSONDecodeError end.

(** Line 62. *)
Definition start_of (ev : value) : result value :=
  (dates <- py_get ev "dates" (VDict []) ;;
   py_get dates "start" (VDict []))%res.

(** Line 124 and the iterator the [for] of line 125 takes. *)
Definition page_events (data : value) : result (list value) :=
  (embedded <- py_get data "_embedded" (VDict []) ;;
   events <- py_get embedded "events" (VList []) ;;
   py_iter events)%res.

(** Lines 130-132. *)
Definition next_href (data : value) : result value :=
  (links <- py_get data "_links" (VDict []) ;;
   next_link <- py_get links "next" (VDict []) ;;
   py_get next_link "href" VNone)%res.

(** The debug block, lines 116-121. *)
Definition debug_block (resp : response) (data : value) : io unit :=
  (IO.emit (EPrint [VStr "Request URL:"; VStr (url resp)]) ;;
   keys <- IO.lift (py_keys data) ;;
   IO.emit (EPrint [VStr "Top-level keys:"; VList keys]) ;;
   page <- IO.lift (py_get data "page" (VDict [])) ;;
   IO.emit (EPrint [VStr "Page info:"; page]) ;;
   has <- IO.lift (py_contains "_embedded" data) ;;
   IO.emit (EPrint [VStr "Has _embedded?"; VBool has]) ;;
   errors <- IO.lift (py_contains "errors" data) ;;
   reported <- (if errors : bool then IO.ret true
                else IO.lift (py_contains "fault" data)) ;;
   if reported : bool then
     e <- IO.lift (py_get data "errors" VNone) ;;
     shown <- (if truthy e then IO.ret e
               else IO.lift (py_get data "fault" VNone)) ;;
     IO.emit (EPrint [VStr "API reported errors:"; shown])
   else IO.ret tt)%io.

Section Exporter.

(** [str()] of a float, a list or a dict: their text is not fixed here,
    nothing below depends on it. *)
Variable str_other : value -> string.

(** What an f-string field renders. *)
Definition py_str (v : value) : string :=
  match v with
  | VStr s => s
  | VNone => "None"
  | VBool true => "True"
  | VBool false => "False"
  | VInt n => str_int n
  | _ => str_other v
  end.

(** [extract_event_datetime], lines 62-67. *)
Definition extract_event_datetime (ev : value) : result value :=
  (start <- start_of ev ;;
   dt <- py_get start "dateTime" VNone ;;
   if truthy dt then py_getitem start "dateTime"
   else
     local_date <- py_get start "localDate" VNone ;;
     lt <- py_get start "localTime" VNone ;;
     let local_time := py_or lt (VStr "00:00:00") in
     Ok (if truthy local_date
         then VStr (py_str local_date ++ "T" ++ py_str local_time)
         else VStr ""))%res.

(** The [for] loop, lines 125-128. *)
Fixpoint write_events (events : list value) : io unit :=
  match events with
  | [] => IO.ret tt
  | ev :: rest =>
      (name <- IO.lift (py_get ev "name" (VStr "")) ;;
       when <- IO.lift (extract_event_datetime ev) ;;
       IO.emit (EWriteRow [name; when]) ;;
       write_events rest)%io
  end.

(** One turn of the [while] loop after the request was answered, lines
    110-132; its value is the new [next_url]. *)
Definition loop_body (resp : response) (next_url : value) : io value :=
  if negb (status_code resp =? 200) then
    IO.raise (RuntimeError
      ("API error " ++ str_int (status_code resp) ++ ": " ++ text resp))
  else
    (data <- IO.lift (resp_json resp) ;;
     (if eq_str next_url ROOT then debug_block resp data else IO.ret tt) ;;
     events <- IO.lift (page_events data) ;;
     write_events events ;;
     IO.lift (next_href data))%io.

(** The [while] loop, lines 108-133, against a scripted transport that
    answers the n-th request with the n-th response of [script], whatever
    is asked.  After a turn [params] is [None] (line 133). *)
Fixpoint paginate (script : list response) (next_url : value)
    (params : option query) : io unit :=
  if truthy next_url then
    let sent :=
      ERequest next_url (if eq_str next_url ROOT then params else None) in
    match script with
    | [] => (IO.emit sent ;; IO.raise StopIteration)%io
    | resp :: rest =>
        (IO.emit sent ;;
         next <- loop_body resp next_url ;;
         paginate rest next None)%io
    end
  else IO.ret tt.

(** [fetch_all_events_to_csv], lines 91-133. *)
Definition fetch_all_events_to_csv (script : list response)
    (api_key city country : string) (start end_ : datetime)
    (out_csv : string) : io unit :=
  let params :=
    get_params api_key (get_iso_date start) (get_iso_date end_)
      city country 200 "date,asc" in
  (IO.emit (EOpen out_csv) ;;
   IO.closing
     (IO.emit (EWriteRow header) ;;
      paginate script (VStr ROOT) (Some params)))%io.

(** [main], lines 144-151: the completion message is printed when the
    export returns. *)
Definition main (script : list response) : io unit :=
  let API_KEY := "" in
  let city := "Calgary" in
  let country := "CA" in
  let start := {| year := 2025; month := 10; day := 1;
                  hour := 0; minute := 0; second := 0 |} in
  let end_ := {| year := 2025; month := 12; day := 1;
                 hour := 0; minute := 0; second := 0 |} in
  (fetch_all_events_to_csv script API_KEY city country start end_ "events.csv" ;;
   IO.emit (EPrint [VStr "Wrote events.csv"]))%io.

End Exporter.

(** ** Vocabulary of the statements *)

(** A rendering for floats, lists and dicts, to run the model on examples. *)
Definition no_text : value -> string := fun _ => "".

(** The value a dict holds under [k], [VNone] for a missing key: what
    [d.get(k)] returns. *)
Definition field (k : string) (kvs : list (string * value)) : value :=
  match lookup k kvs with Some v => v | None => VNone end.

(** One level down a nested mapping; a missing level has no fields. *)
Definition nested (k : string) (o : option value) : option value :=
  match o with Some (VDict kvs) => lookup k kvs | _ => None end.

(** A level is missing or it is a mapping. *)
Definition level_ok (o : option value) : bool :=
  match o with None => true | Some (VDict _) => true | Some _ => false end.

Definition or_none (o : option value) : value :=
  match o with Some v => v | None => VNone end.

(** The three tiers of the normaliser on optional fields, a field counting
    when it is present with a truthy value: the full timestamp, else local
    date and time, else nothing. *)
Definition tiers (str_other : value -> string) (dt ld lt : option value) : value :=
  if truthy (or_none dt) then or_none dt
  else if truthy (or_none ld)
       then VStr (py_str str_other (or_none ld) ++ "T" ++
                  py_str str_other (py_or (or_none lt) (VStr "00:00:00")))
       else VStr "".

(** The row lines 126-128 write for one event. *)
Definition event_row (str_other : value -> string) (ev : value)
    : result (list value) :=
  (name <- py_get ev "name" (VStr "") ;;
   when <- extract_event_datetime str_other ev ;;
   Ok [name; when])%res.

(** The rows of a list of events, when none of them raises. *)
Fixpoint event_rows (str_other : value -> string) (evs : list value)
    : result (list (list value)) :=
  match evs with
  | [] => Ok []
  | ev :: rest =>
      (row <- event_row str_other ev ;;
       rows <- event_rows str_other rest ;;
       Ok (row :: rows))%res
  end.

(** The rows of a page. *)
Definition page_rows (str_other : value -> string) (data : value)
    : result (list (list value)) :=
  (evs <- page_events data ;; event_rows str_other evs)%res.

(** A successful response decoding to [data] whose events make [rows]. *)
Definition page_done (str_other : value -> string) (resp : response)
    (rows : list (list value)) : Prop :=
  status_code resp = 200 /\
  exists data, json resp = Some data /\ page_rows str_other data = Ok rows.

(** Navigation along a path of keys, through mappings only. *)
Fixpoint path_lookup (path : list string) (v : value) : option value :=
  match path with
  | [] => Some v
  | k :: rest =>
      match v with
      | VDict kvs =>
          match lookup k kvs with
          | Some v' => path_lookup rest v'
          | None => None
          end
      | _ => None
      end
  end.

Definition href_path : list string := ["_links"; "next"; "href"].

(** The links part of a page is well formed: the page is a mapping, and
    [_links] and [next] are mappings where they are present. *)
Definition links_shaped (data : value) : bool :=
  match data with
  | VDict kvs =>
      level_ok (lookup "_links" kvs) &&
      level_ok (nested "next" (lookup "_links" kvs))
  | _ => false
  end.

(** The page carries the continuation link [u]: a URL, so a string that is
    not empty, at [_links.next.href]. *)
Definition carries_next (data : value) (u : string) : Prop :=
  path_lookup href_path data = Some (VStr u) /\ u <> "".

(** The page carries no continuation link: it is well formed and the path
    [_links.next.href] is missing from it. *)
Definition carries_no_next (data : value) : Prop :=
  links_shaped data = true /\ path_lookup href_path data = None.

(** The page has no events: no [_embedded], or no [events] in it, or an
    empty list of them. *)
Definition no_events (data : value) : Prop :=
  exists kvs, data = VDict kvs /\
    (lookup "_embedded" kvs = None \/
     exists e, lookup "_embedded" kvs = Some (VDict e) /\
       (lookup "events" e = None \/ lookup "events" e = Some (VList []))).

Definition only_prints (t : trace) : bool :=
  forallb (fun e => match e with EPrint _ => true | _ => false end) t.

Definition is_request (e : effect) : bool :=
  match e with ERequest _ _ => true | _ => false end.

(** The request a turn of the loop sends, line 109. *)
Definition sent (u : value) (p : option query) : effect :=
  ERequest u (if eq_str u ROOT then p else None).

(** The response decodes to a page whose continuation is [h]. *)
Definition answers_with (resp : response) (h : value) : Prop :=
  exists data, json resp = Some data /\ next_href data = Ok h.

(** A successful page with rows [snd lr] that carries the link [fst lr]. *)
Definition linked_page (str_other : value -> string) (resp : response)
    (lr : string * list (list value)) : Prop :=
  exists data,
    status_code resp = 200 /\ json resp = Some data /\
    page_rows str_other data = Ok (snd lr) /\ carries_next data (fst lr).

(** A successful page with rows [rows] that carries no link. *)
Definition final_page (str_other : value -> string) (resp : response)
    (rows : list (list value)) : Prop :=
  exists data,
    status_code resp = 200 /\ json resp = Some data /\
    page_rows str_other data = Ok rows /\ carries_no_next data.

(** The datetimes with a year of four digits: Python's ranges, the year
    from 1000 on. *)
Definition wire_datetime (dt : datetime) : Prop :=
  1000 <= Z.of_nat (year dt) <= 9999 /\
  (1 <= month dt <= 12 /\ 1 <= day dt <= 31 /\
   hour dt <= 23 /\ minute dt <= 59 /\ second dt <= 59)%nat.

Definition is_digit (c : ascii) : bool :=
  (48 <=? nat_of_ascii c)%nat && (nat_of_ascii c <=? 57)%nat.

(** [s] follows [pattern], where ["d"] stands for any decimal digit and
    every other character for itself. *)
Fixpoint shaped (pattern s : string) : bool :=
  match pattern, s with
  | EmptyString, EmptyString => true
  | String p pattern', String c s' =>
      (if Ascii.eqb p "d" then is_digit c else Ascii.eqb p c) &&
      shaped pattern' s'
  | _, _ => false
  end.

(** One more than the last year of a Python [datetime], and the first year
    of four digits. *)
Definition year_bound : nat := Z.to_nat 10000.

Definition year_floor : nat := Z.to_nat 1000.

(** The number a run of decimal digits denotes. *)
Definition unpad (s : string) : nat :=
  match NilEmpty.uint_of_string s with
  | Some d => Nat.of_uint d
  | None => O
  end.

(** An effect of the loop: neither the opening nor the closing of the
    file. *)
Definition inner (e : effect) : bool :=
  match e with EOpen _ | EClose => false | _ => true end.

Definition two_fields (row : list value) : Prop := length row = 2%nat.

(** The name column of an event, line 126. *)
Definition name_of (kvs : list (string * value)) : value :=
  match lookup "name" kvs with Some v => v | None => VStr "" end.



(** Case analysis on what the goal matches on. *)
Ltac destruct_scrutinee :=
  match goal with
  | |- context [match ?x with Ok _ => _ | Raise _ => _ end] => destruct x
  end.

(** ** The date normaliser *)

Lemma py_get_dict kvs k default :
  py_get (VDict kvs) k default =
  Ok (match lookup k kvs with Some v => v | None => default end).
Proof. reflexivity. Qed.

Lemma py_get_field kvs k : py_get (VDict kvs) k VNone = Ok (field k kvs).
Proof. reflexivity. Qed.

Lemma extract_from_start str ev kvs :
  start_of ev = Ok (VDict kvs) ->
  extract_event_datetime str ev =
  if truthy (field "dateTime" kvs) then py_getitem (VDict kvs) "dateTime"
  else Ok (if truthy (field "localDate" kvs)
           then VStr (py_str str (field "localDate" kvs) ++ "T" ++
                      py_str str (py_or (field "localTime" kvs) (VStr "00:00:00")))
           else VStr "").
Proof.
  intros Hs. unfold extract_event_datetime. rewrite Hs. cbn [Res.bind].
  rewrite !py_get_field. cbn [Res.bind].
  destruct (truthy (field "dateTime" kvs)); reflexivity.
Qed.

(** C2 (amended): for every event record whose [dates.start] structure
    holds a [dateTime] that is truthy (for a string: not empty),
    [extract_event_datetime] returns that value unchanged. *)
Theorem full_timestamp_returned (str : value -> string) (ev : value)
    (kvs : list (string * value)) (v : value) :
  start_of ev = Ok (VDict kvs) ->
  lookup "dateTime" kvs = Some v ->
  truthy v = true ->
  extract_event_datetime str ev = Ok v.
Proof.
  intros Hs Hl Ht. rewrite (extract_from_start str ev kvs Hs).
  unfold field. rewrite Hl, Ht. cbn. now rewrite Hl.
Qed.

Lemma full_timestamp_returned_witness :
  extract_event_datetime no_text
    (VDict [("name", VStr "Show A");
            ("dates", VDict [("start",
               VDict [("dateTime", VStr "2025-10-05T19:00:00Z")])])])
  = Ok (VStr "2025-10-05T19:00:00Z").
Proof.
  apply (full_timestamp_returned no_text _
           [("dateTime", VStr "2025-10-05T19:00:00Z")]); reflexivity.
Defined.

(** C2 as stated fails: a record whose [dates.start] contains the field
    [dateTime] with the empty string, next to a local date, gets the local
    date at midnight, not the [dateTime] value. *)
Lemma empty_timestamp_not_returned :
  let start := [("dateTime", VStr ""); ("localDate", VStr "2025-10-06")] in
  let ev := VDict [("name", VStr "Show C"); ("dates", VDict [("start", VDict start)])] in
  start_of ev = Ok (VDict start) /\
  lookup "dateTime" start = Some (VStr "") /\
  extract_event_datetime no_text ev = Ok (VStr "2025-10-06T00:00:00") /\
  extract_event_datetime no_text ev <> Ok (VStr "").
Proof. repeat split; try reflexivity. discriminate. Qed.

(** C3 (amended): for every event record with no truthy [dateTime] whose
    [dates.start] holds a truthy [localDate] (for a string: not empty),
    [extract_event_datetime] returns the local date, ["T"], and the local
    time or ["00:00:00"] when that is missing or empty. *)
Theorem local_date_combined (str : value -> string) (ev : value)
    (kvs : list (string * value)) (ld : value) :
  start_of ev = Ok (VDict kvs) ->
  truthy (field "dateTime" kvs) = false ->
  lookup "localDate" kvs = Some ld ->
  truthy ld = true ->
  extract_event_datetime str ev =
  Ok (VStr (py_str str ld ++ "T" ++
            py_str str (py_or (field "localTime" kvs) (VStr "00:00:00")))).
Proof.
  intros Hs Hdt Hl Ht. rewrite (extract_from_start str ev kvs Hs), Hdt.
  unfold field at 1 2. now rewrite Hl, Ht.
Qed.

Lemma local_date_combined_witness :
  extract_event_datetime no_text
    (VDict [("name", VStr "Show B");
            ("dates", VDict [("start", VDict [("localDate", VStr "2025-10-06")])])])
  = Ok (VStr "2025-10-06T00:00:00").
Proof.
  apply (local_date_combined no_text _ [("localDate", VStr "2025-10-06")]
           (VStr "2025-10-06")); reflexivity.
Defined.

Example local_time_kept :
  extract_event_datetime no_text
    (VDict [("dates", VDict [("start",
       VDict [("localDate", VStr "2025-10-06"); ("localTime", VStr "19:30:00")])])])
  = Ok (VStr "2025-10-06T19:30:00").
Proof. reflexivity. Qed.

(** C3 as stated fails: a record without [dateTime] whose [dates.start]
    contains the field [localDate] with the empty string gets the empty
    string, not ["T00:00:00"]. *)
Lemma empty_local_date_not_combined :
  let start := [("localDate", VStr "")] in
  let ev := VDict [("name", VStr "Show D"); ("dates", VDict [("start", VDict start)])] in
  start_of ev = Ok (VDict start) /\
  lookup "dateTime" start = None /\
  lookup "localDate" start = Some (VStr "") /\
  extract_event_datetime no_text ev = Ok (VStr "") /\
  extract_event_datetime no_text ev <>
    Ok (VStr ("" ++ "T" ++
              py_str no_text (py_or (field "localTime" start) (VStr "00:00:00")))).
Proof. repeat split; try reflexivity. discriminate. Qed.

(** C7: when the [dates] structure, its [start] structure or any date
    field is missing (every level that is present being a mapping),
    [extract_event_datetime] raises nothing: the missing level is read as
    having no field and the result is the one of the precedence tiers. *)
Theorem missing_levels_fall_through (str : value -> string)
    (kvs : list (string * value)) :
  let dates := lookup "dates" kvs in
  let start := nested "start" dates in
  level_ok dates = true ->
  level_ok start = true ->
  extract_event_datetime str (VDict kvs) =
  Ok (tiers str (nested "dateTime" start) (nested "localDate" start)
        (nested "localTime" start)).
Proof.
  intros dates start Hd Hs.
  assert (Hstart : exists skvs,
             start_of (VDict kvs) = Ok (VDict skvs) /\
             forall k, nested k start = lookup k skvs).
  { unfold start_of, start, dates in *. cbn [py_get Res.bind].
    destruct (lookup "dates" kvs) as [d|]; cbn.
    - destruct d; try discriminate Hd. cbn in *.
      destruct (lookup "start" kvs0) as [s|]; cbn.
      + destruct s; try discriminate Hs. eauto.
      + exists []. split; [reflexivity|]. intros k. reflexivity.
    - exists []. split; [reflexivity|]. intros k. reflexivity. }
  destruct Hstart as [skvs [Hst Hn]].
  rewrite (extract_from_start str _ skvs Hst). unfold tiers.
  rewrite !Hn. unfold field, or_none.
  destruct (lookup "dateTime" skvs) as [dt|] eqn:Hdt; cbn.
  - destruct (truthy dt); [now rewrite Hdt|reflexivity].
  - reflexivity.
Qed.

Lemma missing_levels_fall_through_witness :
  extract_event_datetime no_text (VDict [("name", VStr "Show E"); ("dates", VDict [])])
  = Ok (VStr "").
Proof.
  apply (missing_levels_fall_through no_text
           [("name", VStr "Show E"); ("dates", VDict [])]); reflexivity.
Defined.

(** ** Traces of the exporter *)

Local Open Scope list_scope.

Lemma bind_fst {A B} (m : io A) (k : A -> io B) :
  fst (IO.bind m k) =
  (fst m ++ match snd m with Ok a => fst (k a) | Raise _ => [] end)%list.
Proof.
  destruct m as [t [a|e]]; cbn.
  - now destruct (k a).
  - now rewrite app_nil_r.
Qed.

Lemma bind_snd {A B} (m : io A) (k : A -> io B) :
  snd (IO.bind m k) =
  match snd m with Ok a => snd (k a) | Raise e => Raise e end.
Proof.
  destruct m as [t [a|e]]; cbn; [now destruct (k a)|reflexivity].
Qed.

Lemma bind_emit {B} (e : effect) (k : unit -> io B) :
  IO.bind (IO.emit e) k = (e :: fst (k tt), snd (k tt)).
Proof. unfold IO.emit, IO.bind. now destruct (k tt). Qed.

Lemma bind_lift_ok {A B} (a : A) (k : A -> io B) :
  IO.bind (IO.lift (Ok a)) k = k a.
Proof. unfold IO.lift, IO.bind. now destruct (k a). Qed.

Lemma bind_ret {A B} (a : A) (k : A -> io B) : IO.bind (IO.ret a) k = k a.
Proof. unfold IO.ret, IO.bind. now destruct (k a). Qed.

Lemma io_eta {A} (m : io A) : m = (fst m, snd m).
Proof. now destruct m. Qed.

Lemma requests_of_app t1 t2 :
  requests_of (t1 ++ t2) = (requests_of t1 ++ requests_of t2)%list.
Proof. apply flat_map_app. Qed.

Lemma rows_of_app t1 t2 : rows_of (t1 ++ t2) = (rows_of t1 ++ rows_of t2)%list.
Proof. apply flat_map_app. Qed.

Lemma opens_of_app t1 t2 : opens_of (t1 ++ t2) = (opens_of t1 ++ opens_of t2)%list.
Proof. apply flat_map_app. Qed.

Lemma rows_of_writes rows : rows_of (map EWriteRow rows) = rows.
Proof. induction rows as [|r rows IH]; cbn; [reflexivity|f_equal; exact IH]. Qed.

Lemma writes_quiet rows :
  requests_of (map EWriteRow rows) = [] /\ opens_of (map EWriteRow rows) = [].
Proof. induction rows as [|r rows [IH1 IH2]]; cbn; auto. Qed.

Lemma prints_quiet t :
  only_prints t = true ->
  requests_of t = [] /\ rows_of t = [] /\ opens_of t = [].
Proof.
  induction t as [|e t IH]; cbn; [auto|].
  destruct e; try discriminate. intros H. now apply IH.
Qed.

(** The debug block only prints, and on a mapping it raises nothing. *)
Lemma debug_block_prints resp data :
  only_prints (fst (debug_block resp data)) = true.
Proof.
  unfold debug_block. rewrite bind_emit. cbn [fst only_prints forallb andb].
  destruct data; try reflexivity.
  cbn [py_keys py_get py_contains]. rewrite bind_lift_ok, bind_emit.
  rewrite bind_lift_ok, bind_emit, bind_lift_ok, bind_emit, bind_lift_ok.
  cbn [fst only_prints forallb andb].
  fold (only_prints).
  destruct (lookup "errors" kvs) as [e|].
  - rewrite bind_ret, bind_lift_ok.
    destruct (truthy e).
    + now rewrite bind_ret.
    + now rewrite bind_lift_ok.
  - rewrite bind_lift_ok.
    destruct (lookup "fault" kvs) as [f|]; [|reflexivity].
    rewrite bind_lift_ok. cbn [truthy]. now rewrite bind_lift_ok.
Qed.

Lemma debug_block_dict resp kvs : snd (debug_block resp (VDict kvs)) = Ok tt.
Proof.
  unfold debug_block. rewrite bind_emit. cbn [snd].
  cbn [py_keys py_get py_contains]. rewrite bind_lift_ok, bind_emit.
  rewrite bind_lift_ok, bind_emit, bind_lift_ok, bind_emit, bind_lift_ok.
  cbn [snd].
  destruct (lookup "errors" kvs) as [e|].
  - rewrite bind_ret, bind_lift_ok.
    destruct (truthy e).
    + now rewrite bind_ret.
    + now rewrite bind_lift_ok.
  - rewrite bind_lift_ok.
    destruct (lookup "fault" kvs) as [f|]; [|reflexivity].
    rewrite bind_lift_ok. cbn [truthy]. now rewrite bind_lift_ok.
Qed.

(** The [for] loop writes rows and nothing else; it ends normally exactly
    when no event raises, and then the rows are the ones of the events. *)
Lemma write_events_ok str evs rows :
  event_rows str evs = Ok rows ->
  write_events str evs = (map EWriteRow rows, Ok tt).
Proof.
  revert rows. induction evs as [|ev evs IH]; intros rows H; cbn in H.
  - now inversion H.
  - unfold event_row in H. cbn [write_events].
    destruct (py_get ev "name" (VStr "")) as [name|]; [|discriminate].
    cbn [Res.bind] in H.
    destruct (extract_event_datetime str ev) as [when|]; [|discriminate].
    cbn [Res.bind] in H.
    destruct (event_rows str evs) as [rows'|]; [|discriminate].
    cbn [Res.bind] in H. inversion H; subst.
    rewrite !bind_lift_ok, bind_emit, (IH rows' eq_refl). reflexivity.
Qed.

Lemma write_events_shape str evs :
  exists rows,
    fst (write_events str evs) = map EWriteRow rows /\
    (snd (write_events str evs) = Ok tt -> event_rows str evs = Ok rows).
Proof.
  induction evs as [|ev evs [rows [IH1 IH2]]].
  - exists []. split; reflexivity.
  - cbn [write_events event_rows]. unfold event_row.
    destruct (py_get ev "name" (VStr "")) as [name|e].
    2:{ exists []. split; [reflexivity|discriminate]. }
    rewrite bind_lift_ok. cbn [Res.bind].
    destruct (extract_event_datetime str ev) as [when|e].
    2:{ exists []. split; [reflexivity|discriminate]. }
    rewrite bind_lift_ok, bind_emit. cbn [Res.bind fst snd].
    exists ([name; when] :: rows). split.
    + cbn [map]. now rewrite IH1.
    + intros H. now rewrite (IH2 H).
Qed.

Lemma debug_step_quiet resp data (first : bool) :
  let m := if first then debug_block resp data else IO.ret tt in
  requests_of (fst m) = [] /\ rows_of (fst m) = [] /\ opens_of (fst m) = [].
Proof.
  destruct first; cbn zeta; [|now cbn].
  apply prints_quiet, debug_block_prints.
Qed.

Lemma debug_step_dict resp kvs (first : bool) :
  snd (if first then debug_block resp (VDict kvs) else IO.ret tt) = Ok tt.
Proof. destruct first; [apply debug_block_dict|reflexivity]. Qed.

Lemma page_events_dict data evs :
  page_events data = Ok evs -> exists kvs, data = VDict kvs.
Proof. destruct data; try discriminate. eauto. Qed.

(** A turn of the loop issues no request and opens nothing. *)
Lemma loop_body_quiet str resp u :
  requests_of (fst (loop_body str resp u)) = [] /\
  opens_of (fst (loop_body str resp u)) = [].
Proof.
  unfold loop_body.
  destruct (negb (status_code resp =? 200)); [now cbn|].
  unfold resp_json. destruct (json resp) as [data|]; [|now cbn].
  rewrite bind_lift_ok, bind_fst, requests_of_app, opens_of_app.
  destruct (debug_step_quiet resp data (eq_str u ROOT)) as [Hq [_ Ho]].
  cbn zeta in Hq, Ho. rewrite Hq, Ho. cbn [app].
  destruct_scrutinee; [|now cbn].
  destruct (page_events data) as [evs|]; [|now cbn].
  rewrite bind_lift_ok, bind_fst, requests_of_app, opens_of_app.
  destruct (write_events_shape str evs) as [rows [Hw _]].
  rewrite Hw. destruct (writes_quiet rows) as [Hr Hop]. rewrite Hr, Hop.
  destruct (snd (write_events str evs)); now cbn.
Qed.

(** A turn that ends normally: the response was a success, its page was
    written in full, and the value is the href of the page. *)
Lemma loop_body_inv str resp u next :
  snd (loop_body str resp u) = Ok next ->
  exists data rows,
    status_code resp = 200 /\ json resp = Some data /\
    page_rows str data = Ok rows /\
    rows_of (fst (loop_body str resp u)) = rows /\
    next_href data = Ok next.
Proof.
  unfold loop_body.
  destruct (status_code resp =? 200) eqn:Hst; cbn [negb]; [|discriminate].
  apply Z.eqb_eq in Hst.
  unfold resp_json. destruct (json resp) as [data|]; [|discriminate].
  rewrite bind_lift_ok, bind_fst, bind_snd, rows_of_app.
  destruct (debug_step_quiet resp data (eq_str u ROOT)) as [_ [Hq _]].
  cbn zeta in Hq. rewrite Hq. cbn [app].
  destruct_scrutinee; [|discriminate].
  destruct (page_events data) as [evs|] eqn:Hev; [|discriminate].
  rewrite bind_lift_ok, bind_fst, bind_snd.
  destruct (write_events_shape str evs) as [rows [Hw Hok]].
  destruct (snd (write_events str evs)) as [[]|]; [|discriminate].
  cbn [IO.lift fst snd]. intros Hn.
  exists data, rows. rewrite Hw, app_nil_r, rows_of_writes.
  unfold page_rows. rewrite Hev. cbn [Res.bind]. auto.
Qed.

Lemma loop_body_ok str resp u data rows next :
  status_code resp = 200 ->
  json resp = Some data ->
  page_rows str data = Ok rows ->
  next_href data = Ok next ->
  snd (loop_body str resp u) = Ok next /\
  rows_of (fst (loop_body str resp u)) = rows.
Proof.
  intros Hst Hj Hrows Hn. unfold loop_body, resp_json.
  rewrite Hst, Hj. cbn [Z.eqb Pos.eqb negb].
  rewrite bind_lift_ok, bind_fst, bind_snd, rows_of_app.
  destruct (debug_step_quiet resp data (eq_str u ROOT)) as [_ [Hq _]].
  cbn zeta in Hq. rewrite Hq. cbn [app].
  unfold page_rows in Hrows.
  destruct (page_events data) as [evs|] eqn:Hev; [|discriminate].
  destruct (page_events_dict _ _ Hev) as [kvs ->].
  rewrite debug_step_dict, bind_lift_ok, bind_fst, bind_snd.
  cbn [Res.bind] in Hrows. rewrite (write_events_ok _ _ _ Hrows).
  cbn [fst snd IO.lift]. rewrite app_nil_r, rows_of_writes. auto.
Qed.

Lemma truthy_root : truthy (VStr ROOT) = true.
Proof. reflexivity. Qed.

Lemma eq_str_root : eq_str (VStr ROOT) ROOT = true.
Proof. apply String.eqb_refl. Qed.

Lemma paginate_stop str script u p :
  truthy u = false -> paginate str script u p = ([], Ok tt).
Proof. intros H. destruct script; cbn [paginate]; now rewrite H. Qed.

Lemma paginate_nil str u p :
  truthy u = true -> paginate str [] u p = ([sent u p], Raise StopIteration).
Proof. intros H. cbn [paginate]. now rewrite H. Qed.

Lemma paginate_cons str resp rest u p :
  truthy u = true ->
  paginate str (resp :: rest) u p =
  (sent u p ::
     fst (loop_body str resp u) ++
     match snd (loop_body str resp u) with
     | Ok next => fst (paginate str rest next None)
     | Raise _ => []
     end,
   match snd (loop_body str resp u) with
   | Ok next => snd (paginate str rest next None)
   | Raise e => Raise e
   end).
Proof.
  intros H. cbn [paginate]. rewrite H, bind_emit.
  now rewrite bind_fst, bind_snd.
Qed.

Lemma fetch_unfold str script api_key city country start end_ out_csv :
  fetch_all_events_to_csv str script api_key city country start end_ out_csv =
  let params := get_params api_key (get_iso_date start) (get_iso_date end_)
                  city country 200 "date,asc" in
  (EOpen out_csv :: EWriteRow header ::
     fst (paginate str script (VStr ROOT) (Some params)) ++ [EClose],
   snd (paginate str script (VStr ROOT) (Some params))).
Proof.
  unfold fetch_all_events_to_csv. cbn zeta.
  rewrite bind_emit. unfold IO.closing. now rewrite bind_emit.
Qed.

(** ** The continuation link *)

(** On a well-formed page lines 130-132 read the value at
    [_links.next.href], [None] when the path is missing. *)
Lemma next_href_path data :
  links_shaped data = true ->
  next_href data = Ok (or_none (path_lookup href_path data)).
Proof.
  destruct data as [| | | | | |kvs]; try discriminate.
  unfold links_shaped, next_href, href_path. cbn [path_lookup py_get Res.bind].
  destruct (lookup "_links" kvs) as [l|]; cbn [level_ok nested andb].
  - destruct l as [| | | | | |lk]; try discriminate. cbn [py_get Res.bind].
    destruct (lookup "next" lk) as [n|]; [|reflexivity].
    destruct n as [| | | | | |nk]; try discriminate. cbn [py_get Res.bind].
    now destruct (lookup "href" nk).
  - reflexivity.
Qed.

Lemma carries_next_shaped data u :
  carries_next data u -> links_shaped data = true.
Proof.
  intros [H _]. destruct data as [| | | | | |kvs]; try discriminate.
  unfold href_path in H. cbn [path_lookup] in H. unfold links_shaped.
  destruct (lookup "_links" kvs) as [l|]; [|discriminate].
  destruct l as [| | | | | |lk]; try discriminate. cbn [level_ok nested andb].
  destruct (lookup "next" lk) as [n|]; [|discriminate].
  now destruct n.
Qed.

Lemma carries_next_href data u :
  carries_next data u -> next_href data = Ok (VStr u) /\ truthy (VStr u) = true.
Proof.
  intros H. rewrite (next_href_path _ (carries_next_shaped _ _ H)).
  destruct H as [-> Hu]. split; [reflexivity|].
  cbn. destruct (String.eqb_spec u ""); [contradiction|reflexivity].
Qed.

Lemma carries_no_next_href data :
  carries_no_next data -> next_href data = Ok VNone.
Proof. intros [Hs Hp]. now rewrite (next_href_path _ Hs), Hp. Qed.

(** ** The exporter *)

(** C4: when the first response has a status code other than 200, the
    export raises the one error of the program, whose message carries the
    status code and the raw body; the only request is the first one and the
    output holds the header row alone. *)
Theorem non_success_is_fatal (str : value -> string) (resp : response)
    (rest : list response) (api_key city country : string)
    (start end_ : datetime) (out_csv : string) :
  status_code resp <> 200 ->
  let run := fetch_all_events_to_csv str (resp :: rest)
               api_key city country start end_ out_csv in
  let params := get_params api_key (get_iso_date start) (get_iso_date end_)
                  city country 200 "date,asc" in
  snd run = Raise (RuntimeError
    ("API error " ++ str_int (status_code resp) ++ ": " ++ text resp)%string) /\
  fst run = [EOpen out_csv; EWriteRow header;
             ERequest (VStr ROOT) (Some params); EClose] /\
  requests_of (fst run) = [(VStr ROOT, Some params)] /\
  rows_of (fst run) = [header].
Proof.
  intros Hst run params. subst run. rewrite fetch_unfold. cbn zeta.
  rewrite (paginate_cons _ _ _ _ _ truthy_root).
  unfold sent. rewrite eq_str_root. unfold loop_body.
  apply Z.eqb_neq in Hst. rewrite Hst. cbn [negb IO.raise fst snd app].
  fold params. repeat split; reflexivity.
Qed.

Lemma non_success_is_fatal_witness :
  let resp := {| status_code := 404; text := "not found"; url := ROOT; json := None |} in
  let dt := {| year := 2025; month := 10; day := 1;
               hour := 0; minute := 0; second := 0 |} in
  let run := fetch_all_events_to_csv no_text [resp] "key" "Calgary" "CA" dt dt "events.csv" in
  snd run = Raise (RuntimeError "API error 404: not found") /\
  rows_of (fst run) = [header].
Proof.
  intros resp dt run.
  destruct (non_success_is_fatal no_text resp [] "key" "Calgary" "CA" dt dt
              "events.csv") as [H1 [_ [_ H4]]].
  - cbn. discriminate.
  - split; [exact H1|exact H4].
Defined.

Lemma no_params_either_way (b : bool) :
  (if b then @None query else None) = None.
Proof. now destruct b. Qed.

(** The requests of the loop: the first as line 109 builds it, every later
    one against the href of the page before it, without parameters. *)
Lemma paginate_requests str script : forall u p,
  truthy u = true ->
  exists hrefs,
    requests_of (fst (paginate str script u p)) =
      (u, if eq_str u ROOT then p else None) ::
      map (fun h => (h, None)) hrefs /\
    Forall2 answers_with (firstn (length hrefs) script) hrefs.
Proof.
  induction script as [|resp rest IH]; intros u p Hu.
  - exists []. rewrite (paginate_nil _ _ _ Hu). split; [reflexivity|constructor].
  - rewrite (paginate_cons _ _ _ _ _ Hu). cbn [fst].
    change (requests_of (sent u p :: ?t)) with
      ((u, if eq_str u ROOT then p else None) :: requests_of t).
    rewrite requests_of_app.
    destruct (loop_body_quiet str resp u) as [Hq _]. rewrite Hq. cbn [app].
    destruct (snd (loop_body str resp u)) as [next|e] eqn:Hlb.
    2:{ exists []. split; [reflexivity|constructor]. }
    destruct (loop_body_inv _ _ _ _ Hlb) as [data [rows [_ [Hj [_ [_ Hn]]]]]].
    destruct (truthy next) eqn:Hnext.
    + destruct (IH next None Hnext) as [hrefs [Hreq Hall]].
      exists (next :: hrefs). rewrite Hreq, no_params_either_way. split.
      * reflexivity.
      * cbn [length firstn]. constructor; [|exact Hall]. now exists data.
    + rewrite (paginate_stop _ _ _ _ Hnext). exists [].
      split; [reflexivity|constructor].
Qed.

(** C6: the first request goes to the root endpoint with the built
    parameters; every later request goes to the href the page before it
    supplied, with no parameters at all, whatever that href is (the root
    endpoint's own URL included: [params] is [None] by then, line 133). *)
Theorem continuation_requests_carry_no_params (str : value -> string)
    (script : list response) (api_key city country : string)
    (start end_ : datetime) (out_csv : string) :
  let run := fetch_all_events_to_csv str script
               api_key city country start end_ out_csv in
  let params := get_params api_key (get_iso_date start) (get_iso_date end_)
                  city country 200 "date,asc" in
  exists hrefs,
    requests_of (fst run) =
      (VStr ROOT, Some params) :: map (fun h => (h, None)) hrefs /\
    Forall2 answers_with (firstn (length hrefs) script) hrefs.
Proof.
  intros run params. subst run. rewrite fetch_unfold. cbn zeta. cbn [fst].
  change (requests_of (EOpen out_csv :: EWriteRow header :: ?t))
    with (requests_of t).
  rewrite requests_of_app. cbn [requests_of flat_map]. rewrite app_nil_r.
  destruct (paginate_requests str script (VStr ROOT) (Some params) truthy_root)
    as [hrefs [Hreq Hall]].
  rewrite eq_str_root in Hreq. exists hrefs. split; [exact Hreq|exact Hall].
Qed.

(** A page whose continuation link is the root endpoint itself: the second
    request carries no parameters. *)
Example root_link_gets_no_params :
  let page1 := {| status_code := 200; text := ""; url := ROOT;
                  json := Some (VDict [("_links",
                    VDict [("next", VDict [("href", VStr ROOT)])])]) |} in
  let page2 := {| status_code := 200; text := ""; url := ROOT;
                  json := Some (VDict []) |} in
  let dt := {| year := 2025; month := 10; day := 1;
               hour := 0; minute := 0; second := 0 |} in
  requests_of (fst (fetch_all_events_to_csv no_text [page1; page2]
                      "key" "Calgary" "CA" dt dt "events.csv")) =
  [(VStr ROOT, Some (get_params "key" "2025-10-01T00:00:00Z"
                       "2025-10-01T00:00:00Z" "Calgary" "CA" 200 "date,asc"));
   (VStr ROOT, None)].
Proof. reflexivity. Qed.

(** A run over successful pages, each but the last carrying a link. *)
Lemma paginate_chain str rest last rows_last init : forall linked u p,
  truthy u = true ->
  Forall2 (linked_page str) init linked ->
  final_page str last rows_last ->
  let run := paginate str (init ++ last :: rest) u p in
  snd run = Ok tt /\
  requests_of (fst run) =
    (u, if eq_str u ROOT then p else None) ::
    map (fun lr => (VStr (fst lr), None)) linked /\
  rows_of (fst run) = concat (map snd linked) ++ rows_last.
Proof.
  induction init as [|resp init IH]; intros linked u p Hu Hall Hlast run;
    subst run; inversion Hall as [|? y ? l' Hpage Hrest]; subst; clear Hall.
  - destruct Hlast as [data [Hst [Hj [Hrows Hno]]]].
    cbn [app]. rewrite (paginate_cons _ _ _ _ _ Hu).
    destruct (loop_body_ok str last u data rows_last VNone Hst Hj Hrows
                (carries_no_next_href _ Hno)) as [Hsnd Hr].
    destruct (loop_body_quiet str last u) as [Hq _].
    rewrite Hsnd, (paginate_stop str rest VNone None eq_refl).
    cbn [fst snd]. rewrite app_nil_r.
    change (requests_of (sent u p :: ?t)) with
      ((u, if eq_str u ROOT then p else None) :: requests_of t).
    change (rows_of (sent u p :: ?t)) with (rows_of t).
    rewrite Hq, Hr. auto.
  - destruct Hpage as [data [Hst [Hj [Hrows Hnext]]]].
    destruct (carries_next_href _ _ Hnext) as [Hn Htr].
    cbn [app]. rewrite (paginate_cons _ _ _ _ _ Hu).
    destruct (loop_body_ok str resp u data _ _ Hst Hj Hrows Hn) as [Hsnd Hr].
    destruct (loop_body_quiet str resp u) as [Hq _].
    rewrite Hsnd. cbn [fst snd].
    destruct (IH _ (VStr (fst y)) None Htr Hrest Hlast) as [H1 [H2 H3]].
    change (requests_of (sent u p :: ?t)) with
      ((u, if eq_str u ROOT then p else None) :: requests_of t).
    change (rows_of (sent u p :: ?t)) with (rows_of t).
    rewrite requests_of_app, rows_of_app, Hq, Hr, H1, H2, H3.
    rewrite no_params_either_way. cbn [app map concat].
    now rewrite app_assoc.
Qed.

Lemma fetch_chain str last rows_last init linked
    api_key city country start end_ out_csv :
  Forall2 (linked_page str) init linked ->
  final_page str last rows_last ->
  let run := fetch_all_events_to_csv str (init ++ [last])
               api_key city country start end_ out_csv in
  let params := get_params api_key (get_iso_date start) (get_iso_date end_)
                  city country 200 "date,asc" in
  snd run = Ok tt /\
  requests_of (fst run) =
    (VStr ROOT, Some params) ::
    map (fun lr => (VStr (fst lr), None)) linked /\
  rows_of (fst run) = header :: concat (map snd linked) ++ rows_last.
Proof.
  intros Hall Hlast run params. subst run. rewrite fetch_unfold. cbn zeta.
  fold params.
  destruct (paginate_chain str [] last rows_last init linked (VStr ROOT)
              (Some params) truthy_root Hall Hlast) as [H1 [H2 H3]].
  cbn [fst snd].
  change (requests_of (EOpen out_csv :: EWriteRow header :: ?t))
    with (requests_of t).
  change (rows_of (EOpen out_csv :: EWriteRow header :: ?t))
    with (header :: rows_of t).
  rewrite requests_of_app, rows_of_app, H1, H2, H3, eq_str_root.
  cbn [requests_of rows_of flat_map]. now rewrite !app_nil_r.
Qed.

(** C1: against a scripted sequence of two successful pages, the first
    carrying a continuation link and the second none, the export ends
    normally after exactly two requests (the root endpoint with the built
    parameters, then the link) and has written the header, the rows of
    page 1 and the rows of page 2, in that order. *)
Theorem two_pages_two_requests (str : value -> string)
    (page1 page2 : response) (data1 data2 : value) (link : string)
    (rows1 rows2 : list (list value)) (api_key city country : string)
    (start end_ : datetime) (out_csv : string) :
  status_code page1 = 200 -> json page1 = Some data1 ->
  page_rows str data1 = Ok rows1 -> carries_next data1 link ->
  status_code page2 = 200 -> json page2 = Some data2 ->
  page_rows str data2 = Ok rows2 -> carries_no_next data2 ->
  let run := fetch_all_events_to_csv str [page1; page2]
               api_key city country start end_ out_csv in
  let params := get_params api_key (get_iso_date start) (get_iso_date end_)
                  city country 200 "date,asc" in
  snd run = Ok tt /\
  requests_of (fst run) = [(VStr ROOT, Some params); (VStr link, None)] /\
  rows_of (fst run) = header :: rows1 ++ rows2.
Proof.
  intros Hs1 Hj1 Hr1 Hl1 Hs2 Hj2 Hr2 Hl2.
  assert (Hall : Forall2 (linked_page str) [page1] [(link, rows1)]).
  { constructor; [|constructor]. exists data1. cbn [fst snd]. auto. }
  assert (Hlast : final_page str page2 rows2) by (exists data2; auto).
  pose proof (fetch_chain str page2 rows2 [page1] [(link, rows1)]
                api_key city country start end_ out_csv Hall Hlast) as H.
  cbn zeta in H. cbn [app map concat fst snd] in H. rewrite app_nil_r in H.
  exact H.
Qed.

Lemma two_pages_two_requests_witness :
  let ev_a := VDict [("name", VStr "Show A");
                     ("dates", VDict [("start",
                        VDict [("dateTime", VStr "2025-10-05T19:00:00Z")])])] in
  let ev_b := VDict [("name", VStr "Show B");
                     ("dates", VDict [("start",
                        VDict [("localDate", VStr "2025-10-06")])])] in
  let data1 := VDict [("_embedded", VDict [("events", VList [ev_a])]);
                      ("_links", VDict [("next",
                         VDict [("href", VStr "https://example.org/page2")])])] in
  let data2 := VDict [("_embedded", VDict [("events", VList [ev_b])]);
                      ("_links", VDict [("self", VDict [])])] in
  let page1 := {| status_code := 200; text := ""; url := ROOT; json := Some data1 |} in
  let page2 := {| status_code := 200; text := ""; url := ""; json := Some data2 |} in
  let dt := {| year := 2025; month := 10; day := 1;
               hour := 0; minute := 0; second := 0 |} in
  let run := fetch_all_events_to_csv no_text [page1; page2]
               "key" "Calgary" "CA" dt dt "events.csv" in
  snd run = Ok tt /\
  length (requests_of (fst run)) = 2%nat /\
  rows_of (fst run) =
    [header; [VStr "Show A"; VStr "2025-10-05T19:00:00Z"];
     [VStr "Show B"; VStr "2025-10-06T00:00:00"]].
Proof.
  intros ev_a ev_b data1 data2 page1 page2 dt run.
  destruct (two_pages_two_requests no_text page1 page2 data1 data2
              "https://example.org/page2"
              [[VStr "Show A"; VStr "2025-10-05T19:00:00Z"]]
              [[VStr "Show B"; VStr "2025-10-06T00:00:00"]]
              "key" "Calgary" "CA" dt dt "events.csv")
    as [H1 [H2 H3]]; try reflexivity.
  - split; [reflexivity|discriminate].
  - split; reflexivity.
  - fold run in H1, H2, H3. rewrite H2. repeat split; assumption.
Defined.

(** C10 (amended): against a finite scripted sequence of successful pages
    of which every one but the last carries a continuation link and the
    last one carries none, the loop ends normally, with exactly one request
    per response; and on a well-formed page the loop variable takes the
    value at [_links.next.href], so that it becomes [None] exactly when the
    page lacks that path or holds a JSON null there. *)
Theorem pagination_terminates (str : value -> string)
    (init : list response) (linked : list (string * list (list value)))
    (last : response) (rows_last : list (list value))
    (api_key city country : string) (start end_ : datetime)
    (out_csv : string) :
  Forall2 (linked_page str) init linked ->
  final_page str last rows_last ->
  let run := fetch_all_events_to_csv str (init ++ [last])
               api_key city country start end_ out_csv in
  let params := get_params api_key (get_iso_date start) (get_iso_date end_)
                  city country 200 "date,asc" in
  snd run = Ok tt /\
  length (requests_of (fst run)) = length (init ++ [last]) /\
  requests_of (fst run) =
    (VStr ROOT, Some params) ::
    map (fun lr => (VStr (fst lr), None)) linked /\
  (forall data, links_shaped data = true ->
     next_href data = Ok (or_none (path_lookup href_path data)) /\
     (next_href data = Ok VNone <->
      path_lookup href_path data = None \/
      path_lookup href_path data = Some VNone)).
Proof.
  intros Hall Hlast run params.
  destruct (fetch_chain str last rows_last init linked
              api_key city country start end_ out_csv Hall Hlast)
    as [H1 [H2 _]].
  fold run in H1, H2. fold params in H2.
  split; [exact H1|]. split; [|split; [exact H2|]].
  - rewrite H2. cbn [length]. rewrite length_map, length_app. cbn [length].
    rewrite (Forall2_length Hall). lia.
  - intros data Hshape. pose proof (next_href_path data Hshape) as Hn.
    split; [exact Hn|]. rewrite Hn. split.
    + destruct (path_lookup href_path data) as [v|]; [|now left].
      cbn [or_none]. intros Hv. inversion Hv. now right.
    + now intros [-> | ->].
Qed.

Lemma pagination_terminates_witness :
  let data1 := VDict [("_links", VDict [("next",
                         VDict [("href", VStr "https://example.org/page2")])])] in
  let data2 := VDict [("_embedded", VDict [("events",
                         VList [VDict [("name", VStr "Show F")]])]);
                      ("_links", VDict [("next",
                         VDict [("href", VStr "https://example.org/page3")])])] in
  let data3 := VDict [("_links", VDict [])] in
  let page n d := {| status_code := 200; text := ""; url := n; json := Some d |} in
  let dt := {| year := 2025; month := 10; day := 1;
               hour := 0; minute := 0; second := 0 |} in
  let run := fetch_all_events_to_csv no_text
               ([page "1" data1; page "2" data2] ++ [page "3" data3])
               "key" "Calgary" "CA" dt dt "events.csv" in
  snd run = Ok tt /\ length (requests_of (fst run)) = 3%nat.
Proof.
  intros data1 data2 data3 page dt run.
  destruct (pagination_terminates no_text
              [page "1" data1; page "2" data2]
              [("https://example.org/page2", []);
               ("https://example.org/page3", [[VStr "Show F"; VStr ""]])]
              (page "3" data3) []
              "key" "Calgary" "CA" dt dt "events.csv")
    as [H1 [H2 _]].
  - constructor; [|constructor; [|constructor]].
    + exists data1. repeat split; try reflexivity. discriminate.
    + exists data2. repeat split; try reflexivity. discriminate.
  - exists data3. repeat split; reflexivity.
  - fold run in H1, H2. split; [exact H1|exact H2].
Defined.

(** C10 as stated fails in its last part: a page whose [_links.next.href]
    is present and holds a JSON null does not lack the path, and the loop
    variable becomes [None] all the same. *)
Lemma null_href_reads_as_absent :
  let data := VDict [("_links", VDict [("next", VDict [("href", VNone)])])] in
  links_shaped data = true /\
  path_lookup href_path data = Some VNone /\
  path_lookup href_path data <> None /\
  next_href data = Ok VNone.
Proof. repeat split; try reflexivity. discriminate. Qed.

(** ** Order of the effects *)

(** Cutting a trace in front of a request, past a prefix without any. *)
Lemma split_quiet (l1 l2 : trace) x post : forall pre,
  requests_of l1 = [] -> is_request x = true ->
  l1 ++ l2 = pre ++ x :: post ->
  exists pre', pre = l1 ++ pre' /\ l2 = pre' ++ x :: post.
Proof.
  induction l1 as [|e l1 IH]; intros pre Hq Hx Heq.
  - exists pre. auto.
  - destruct pre as [|e' pre]; cbn [app] in Heq; inversion Heq; subst.
    + destruct x; try discriminate Hx. discriminate Hq.
    + assert (Hq' : requests_of l1 = []).
      { destruct e'; cbn in Hq; try exact Hq. discriminate Hq. }
      destruct (IH pre Hq' Hx H1) as [pre' [-> ->]]. now exists pre'.
Qed.

Lemma split_last (c x : effect) post : forall (t pre : trace),
  x <> c -> t ++ [c] = pre ++ x :: post ->
  exists post', t = pre ++ x :: post'.
Proof.
  intros t pre. revert t.
  induction pre as [|e pre IH]; intros t Hx Heq.
  - destruct t as [|e t]; cbn [app] in Heq; inversion Heq; subst.
    + now elim Hx.
    + now exists t.
  - destruct t as [|e' t]; cbn [app] in Heq; inversion Heq; subst.
    + now destruct pre.
    + destruct (IH t Hx H1) as [post' ->]. now exists post'.
Qed.

Lemma paginate_opens str script : forall u p,
  opens_of (fst (paginate str script u p)) = [].
Proof.
  induction script as [|resp rest IH]; intros u p;
    destruct (truthy u) eqn:Hu;
    try (now rewrite (paginate_stop _ _ _ _ Hu)).
  - now rewrite (paginate_nil _ _ _ Hu).
  - rewrite (paginate_cons _ _ _ _ _ Hu). cbn [fst].
    change (opens_of (sent u p :: ?t)) with (opens_of t).
    rewrite opens_of_app.
    destruct (loop_body_quiet str resp u) as [_ Ho]. rewrite Ho.
    destruct (snd (loop_body str resp u)); [apply IH|reflexivity].
Qed.

(** When the loop issues a request, every page received so far was a
    success and all of its rows are written. *)
Lemma paginate_split str script x post : forall u p pre,
  is_request x = true ->
  fst (paginate str script u p) = pre ++ x :: post ->
  exists rowss,
    Forall2 (page_done str) (firstn (length (requests_of pre)) script) rowss /\
    rows_of pre = concat rowss.
Proof.
  induction script as [|resp rest IH]; intros u p pre Hx Heq;
    destruct (truthy u) eqn:Hu;
    try (rewrite (paginate_stop _ _ _ _ Hu) in Heq; now destruct pre).
  - rewrite (paginate_nil _ _ _ Hu) in Heq. cbn [fst] in Heq.
    destruct pre as [|e pre]; [|inversion Heq; now destruct pre].
    exists []. split; [constructor|reflexivity].
  - rewrite (paginate_cons _ _ _ _ _ Hu) in Heq. cbn [fst] in Heq.
    destruct pre as [|e pre].
    { exists []. split; [constructor|reflexivity]. }
    cbn [app] in Heq. inversion Heq as [[He Hrest]]. clear Heq.
    destruct (loop_body_quiet str resp u) as [Hq _].
    destruct (split_quiet _ _ _ _ _ Hq Hx Hrest) as [pre' [-> Hk]].
    destruct (snd (loop_body str resp u)) as [next|err] eqn:Hlb;
      [|now destruct pre'].
    destruct (loop_body_inv _ _ _ _ Hlb) as [data [rows [Hst [Hj [Hrows [Hr _]]]]]].
    destruct (IH next None pre' Hx Hk) as [rowss [Hall Hrs]].
    exists (rows :: rowss).
    change (requests_of (sent u p :: ?t)) with
      ((u, if eq_str u ROOT then p else None) :: requests_of t).
    change (rows_of (sent u p :: ?t)) with (rows_of t).
    rewrite requests_of_app, rows_of_app, Hq, Hr, Hrs.
    cbn [app length firstn concat]. split; [|reflexivity].
    constructor; [|exact Hall]. split; [exact Hst|]. now exists data.
Qed.

(** C8: in every run the output is opened once, first of all, and the
    header row is the next effect, so before any event row; and whenever a
    request is issued, the rows written so far are the header and the
    complete rows of every page received so far, each of them a success:
    no request leaves rows of a received page unwritten. *)
Theorem rows_written_before_next_request (str : value -> string)
    (script : list response) (api_key city country : string)
    (start end_ : datetime) (out_csv : string) :
  let run := fetch_all_events_to_csv str script
               api_key city country start end_ out_csv in
  (exists rest,
     fst run = EOpen out_csv :: EWriteRow header :: rest /\
     opens_of rest = []) /\
  (forall pre u p post,
     fst run = pre ++ ERequest u p :: post ->
     exists rowss,
       Forall2 (page_done str)
         (firstn (length (requests_of pre)) script) rowss /\
       rows_of pre = header :: concat rowss).
Proof.
  intros run. subst run. rewrite fetch_unfold. cbn zeta. cbn [fst]. split.
  - eexists. split; [reflexivity|].
    now rewrite opens_of_app, paginate_opens.
  - intros pre u p post Heq.
    change (EOpen out_csv :: EWriteRow header :: ?t)
      with ([EOpen out_csv; EWriteRow header] ++ t) in Heq.
    destruct (split_quiet [EOpen out_csv; EWriteRow header] _
                (ERequest u p) _ _ eq_refl eq_refl Heq) as [pre' [-> Hk]].
    apply split_last in Hk; [|discriminate]. destruct Hk as [post' Hk].
    destruct (paginate_split str script (ERequest u p) post' _ _ pre'
                eq_refl Hk) as [rowss [Hall Hrs]].
    exists rowss. rewrite requests_of_app, rows_of_app, Hrs. now split.
Qed.

(** The order on a run of two pages of one event each: the second request
    comes after the row of the first page. *)
Example second_request_after_first_rows :
  let ev n := VDict [("name", VStr n)] in
  let data1 := VDict [("_embedded", VDict [("events", VList [ev "A"])]);
                      ("_links", VDict [("next",
                         VDict [("href", VStr "https://example.org/page2")])])] in
  let data2 := VDict [("_embedded", VDict [("events", VList [ev "B"])])] in
  let page d := {| status_code := 200; text := ""; url := ""; json := Some d |} in
  let dt := {| year := 2025; month := 10; day := 1;
               hour := 0; minute := 0; second := 0 |} in
  fst (fetch_all_events_to_csv no_text [page data1; page data2]
         "key" "Calgary" "CA" dt dt "events.csv") =
  [EOpen "events.csv"; EWriteRow header;
   ERequest (VStr ROOT)
     (Some (get_params "key" "2025-10-01T00:00:00Z" "2025-10-01T00:00:00Z"
              "Calgary" "CA" 200 "date,asc"));
   EPrint [VStr "Request URL:"; VStr ""];
   EPrint [VStr "Top-level keys:"; VList [VStr "_embedded"; VStr "_links"]];
   EPrint [VStr "Page info:"; VDict []];
   EPrint [VStr "Has _embedded?"; VBool true];
   EWriteRow [VStr "A"; VStr ""];
   ERequest (VStr "https://example.org/page2") None;
   EWriteRow [VStr "B"; VStr ""];
   EClose].
Proof. reflexivity. Qed.

(** ** Pages without events, events without date *)

Lemma no_events_rows str data : no_events data -> page_rows str data = Ok [].
Proof.
  intros [kvs [-> H]]. unfold page_rows, page_events.
  cbn [py_get Res.bind].
  destruct H as [-> | [e [-> H]]]; [reflexivity|].
  cbn [py_get Res.bind]. destruct H as [-> | ->]; reflexivity.
Qed.

Lemma next_href_same_links data data' rows rows' str :
  page_rows str data = Ok rows -> page_rows str data' = Ok rows' ->
  path_lookup ["_links"] data' = path_lookup ["_links"] data ->
  next_href data' = next_href data.
Proof.
  intros H H'.
  destruct data as [| | | | | |kvs]; try discriminate H.
  destruct data' as [| | | | | |kvs']; try discriminate H'.
  unfold next_href. cbn [path_lookup py_get Res.bind]. intros Heq.
  destruct (lookup "_links" kvs') as [l'|], (lookup "_links" kvs) as [l|];
    try discriminate Heq; [|reflexivity].
  now inversion Heq.
Qed.

Lemma paginate_first_request str script u :
  truthy u = true ->
  exists t, fst (paginate str script u None) = ERequest u None :: t.
Proof.
  intros Hu. destruct script as [|resp rest].
  - rewrite (paginate_nil _ _ _ Hu). unfold sent.
    rewrite no_params_either_way. now exists [].
  - rewrite (paginate_cons _ _ _ _ _ Hu). unfold sent.
    rewrite no_params_either_way. cbn [fst]. eauto.
Qed.

(** C9: a successful, well-formed page with no events (an empty list, or
    no embedded events at all) raises nothing and writes no row; the loop
    goes on from the value at [_links.next.href] alone: with a link the next
    request goes to it, without one the loop ends normally; and a page with
    the same [_links] yields the same continuation whatever its events. *)
Theorem empty_page_is_no_error (str : value -> string) (resp : response)
    (data : value) (rest : list response) (u : value) (p : option query) :
  truthy u = true ->
  status_code resp = 200 -> json resp = Some data ->
  no_events data -> links_shaped data = true ->
  let next := or_none (path_lookup href_path data) in
  let after := paginate str rest next None in
  page_rows str data = Ok [] /\
  (exists t,
     loop_body str resp u = (t, Ok next) /\
     rows_of t = [] /\ requests_of t = [] /\
     paginate str (resp :: rest) u p = (sent u p :: t ++ fst after, snd after)) /\
  (forall link, carries_next data link ->
     exists t', fst after = ERequest (VStr link) None :: t') /\
  (carries_no_next data -> after = ([], Ok tt)) /\
  (forall resp' data' rows',
     status_code resp' = 200 -> json resp' = Some data' ->
     page_rows str data' = Ok rows' ->
     path_lookup ["_links"] data' = path_lookup ["_links"] data ->
     snd (loop_body str resp' u) = Ok next).
Proof.
  intros Hu Hst Hj Hno Hshape next after.
  pose proof (no_events_rows str data Hno) as Hrows.
  pose proof (next_href_path data Hshape) as Hnext. fold next in Hnext.
  destruct (loop_body_ok str resp u data [] next Hst Hj Hrows Hnext)
    as [Hsnd Hr].
  destruct (loop_body_quiet str resp u) as [Hq _].
  split; [exact Hrows|]. split; [|split; [|split]].
  - exists (fst (loop_body str resp u)). repeat split; try assumption.
    + rewrite <- Hsnd. apply io_eta.
    + rewrite (paginate_cons _ _ _ _ _ Hu), Hsnd. reflexivity.
  - intros link Hlink. destruct (carries_next_href _ _ Hlink) as [_ Htr].
    destruct Hlink as [Hpath _]. subst after next. rewrite Hpath.
    cbn [or_none]. now apply paginate_first_request.
  - intros [_ Hpath]. subst after next. rewrite Hpath. cbn [or_none].
    now apply paginate_stop.
  - intros resp' data' rows' Hst' Hj' Hrows' Hlinks.
    apply (loop_body_ok str resp' u data' rows' next Hst' Hj' Hrows').
    now rewrite (next_href_same_links data data' [] rows' str Hrows Hrows' Hlinks).
Qed.

Lemma empty_page_is_no_error_witness :
  let data := VDict [("_embedded", VDict [("events", VList [])]);
                     ("_links", VDict [("next",
                        VDict [("href", VStr "https://example.org/page2")])])] in
  let resp := {| status_code := 200; text := ""; url := ""; json := Some data |} in
  page_rows no_text data = Ok [] /\
  exists t, fst (paginate no_text [] (VStr "https://example.org/page2") None) =
            ERequest (VStr "https://example.org/page2") None :: t.
Proof.
  intros data resp.
  destruct (empty_page_is_no_error no_text resp data [] (VStr ROOT) None)
    as [H1 [_ [H3 _]]]; try reflexivity.
  - exists [("_embedded", VDict [("events", VList [])]);
            ("_links", VDict [("next",
               VDict [("href", VStr "https://example.org/page2")])])].
    split; [reflexivity|]. right.
    exists [("events", VList [])]. split; [reflexivity|]. now right.
  - split; [exact H1|].
    apply (H3 "https://example.org/page2"). split; [reflexivity|discriminate].
Defined.

Lemma write_events_after str later : forall earlier t,
  write_events str earlier = (t, Ok tt) ->
  write_events str (earlier ++ later) =
  (t ++ fst (write_events str later), snd (write_events str later)).
Proof.
  induction earlier as [|ev earlier IH]; intros t H.
  - cbn in H. inversion H. cbn [app]. apply io_eta.
  - cbn [app write_events] in *.
    destruct (py_get ev "name" (VStr "")) as [name|]; [|discriminate H].
    rewrite bind_lift_ok in *.
    destruct (extract_event_datetime str ev) as [when|]; [|discriminate H].
    rewrite bind_lift_ok, bind_emit in *.
    inversion H as [[Ht Hs]].
    rewrite (IH (fst (write_events str earlier))); [reflexivity|].
    rewrite <- Hs. apply io_eta.
Qed.


(** ** Further properties of the date normaliser *)

Lemma start_of_cases ev :
  (exists kvs, start_of ev = Ok (VDict kvs)) \/
  (exists v, start_of ev = Ok v /\ forall k d, py_get v k d = Raise AttributeError) \/
  start_of ev = Raise AttributeError.
Proof.
  unfold start_of.
  destruct ev as [| | | | | |kvs]; auto.
  cbn [py_get Res.bind].
  destruct (lookup "dates" kvs) as [d|]; cbn [Res.bind].
  - destruct d as [| | | | | |dk]; auto. cbn [py_get].
    destruct (lookup "start" dk) as [s|]; [|left; eauto].
    destruct s; try (right; left; eexists; split; [reflexivity|reflexivity]).
    left; eauto.
  - left. cbn. eauto.
Qed.

(** The only exception [extract_event_datetime] lets out is
    [AttributeError]: the subscript of line 64 is reached only for a key
    that [get] has just found. *)
Theorem extract_raises_only_attribute_error (str : value -> string) (ev : value) :
  (exists v, extract_event_datetime str ev = Ok v) \/
  extract_event_datetime str ev = Raise AttributeError.
Proof.
  destruct (start_of_cases ev) as [[kvs Hs] | [[v [Hs Hv]] | Hs]].
  - left. rewrite (extract_from_start str ev kvs Hs).
    unfold field. destruct (lookup "dateTime" kvs) as [dt|] eqn:Hdt.
    + destruct (truthy dt); [|eauto]. cbn. rewrite Hdt. eauto.
    + cbn [truthy]. eauto.
  - right. unfold extract_event_datetime. rewrite Hs. cbn [Res.bind].
    now rewrite Hv.
  - right. unfold extract_event_datetime. now rewrite Hs.
Qed.

Lemma shaped_start kvs :
  level_ok (lookup "dates" kvs) = true ->
  level_ok (nested "start" (lookup "dates" kvs)) = true ->
  exists skvs, start_of (VDict kvs) = Ok (VDict skvs).
Proof.
  intros Hd Hs. unfold start_of. cbn [py_get Res.bind].
  destruct (lookup "dates" kvs) as [d|]; cbn [Res.bind].
  - destruct d as [| | | | | |dk]; try discriminate Hd. cbn in *.
    destruct (lookup "start" dk) as [s|]; [|eauto].
    destruct s; try discriminate Hs. eauto.
  - cbn. eauto.
Qed.

(** On an event mapping, [extract_event_datetime] raises exactly when
    [dates], or [start] inside it, is present without being a mapping (a
    JSON null, a string, a list): the defaults of line 62 cover a missing
    key only. *)
Theorem malformed_level_raises (str : value -> string)
    (kvs : list (string * value)) :
  let dates := lookup "dates" kvs in
  let start := nested "start" dates in
  extract_event_datetime str (VDict kvs) = Raise AttributeError <->
  level_ok dates && level_ok start = false.
Proof.
  intros dates start. subst dates start. split.
  - intros Hraise.
    destruct (level_ok (lookup "dates" kvs)) eqn:Hd; [|reflexivity].
    destruct (level_ok (nested "start" (lookup "dates" kvs))) eqn:Hs;
      [|reflexivity].
    destruct (shaped_start kvs Hd Hs) as [skvs Hst].
    rewrite (extract_from_start str _ skvs Hst) in Hraise.
    unfold field in Hraise.
    destruct (lookup "dateTime" skvs) as [dt|] eqn:Hdt.
    + destruct (truthy dt); [|discriminate Hraise].
      cbn in Hraise. rewrite Hdt in Hraise. discriminate Hraise.
    + discriminate Hraise.
  - intros Hbad. unfold extract_event_datetime, start_of.
    cbn [py_get Res.bind].
    destruct (lookup "dates" kvs) as [d|]; [|discriminate Hbad].
    destruct d as [| | | | | |dk]; try reflexivity.
    cbn in Hbad. cbn [py_get Res.bind].
    destruct (lookup "start" dk) as [s|]; [|discriminate Hbad].
    destruct s; try reflexivity. discriminate Hbad.
Qed.

Example null_dates_raises :
  extract_event_datetime no_text (VDict [("name", VStr "Show H"); ("dates", VNone)])
  = Raise AttributeError.
Proof. reflexivity. Qed.

(** [extract_event_datetime] keeps its [str] annotation whenever the
    [dateTime] it may return is a string: the two other tiers build
    strings whatever the local fields hold. *)
Theorem extract_returns_string (str : value -> string) (ev : value)
    (kvs : list (string * value)) :
  start_of ev = Ok (VDict kvs) ->
  (forall v, lookup "dateTime" kvs = Some v -> truthy v = true ->
             exists s, v = VStr s) ->
  exists s, extract_event_datetime str ev = Ok (VStr s).
Proof.
  intros Hs Hdt. rewrite (extract_from_start str ev kvs Hs).
  unfold field at 1. destruct (lookup "dateTime" kvs) as [dt|] eqn:Hl.
  - destruct (truthy dt) eqn:Ht.
    + destruct (Hdt dt eq_refl Ht) as [s ->]. cbn. rewrite Hl. eauto.
    + destruct (truthy (field "localDate" kvs)); eauto.
  - cbn [truthy]. destruct (truthy (field "localDate" kvs)); eauto.
Qed.

Lemma extract_returns_string_witness :
  exists s,
    extract_event_datetime no_text
      (VDict [("dates", VDict [("start",
         VDict [("localDate", VInt 20251006); ("localTime", VBool true)])])])
    = Ok (VStr s).
Proof.
  apply (extract_returns_string no_text _
           [("localDate", VInt 20251006); ("localTime", VBool true)]).
  - reflexivity.
  - intros v Hv. discriminate Hv.
Defined.

(** ** The wire format of dates and parameters *)

Lemma below_forall (P : nat -> bool) (bound : nat) :
  forallb P (seq 0 bound) = true -> forall n, (n < bound)%nat -> P n = true.
Proof.
  intros H n Hn. rewrite forallb_forall in H. apply H, in_seq. lia.
Qed.

Lemma pad2_checked n :
  (n < 100)%nat -> shaped "dd" (pad 2 n) = true /\ unpad (pad 2 n) = n.
Proof.
  intros Hn.
  assert (H : forallb (fun n => shaped "dd" (pad 2 n) &&
                                Nat.eqb (unpad (pad 2 n)) n) (seq 0 100) = true)
    by (vm_compute; reflexivity).
  apply (below_forall _ _ H), andb_prop in Hn. destruct Hn as [H1 H2].
  now apply Nat.eqb_eq in H2.
Qed.

Lemma year_bound_spec : Z.of_nat year_bound = 10000.
Proof. vm_compute. reflexivity. Qed.

Lemma year_floor_spec : Z.of_nat year_floor = 1000.
Proof. vm_compute. reflexivity. Qed.

Lemma year_all :
  forallb (fun n => Nat.ltb n year_floor ||
                    (shaped "dddd" (digits n) && Nat.eqb (unpad (digits n)) n))
    (seq 0 year_bound) = true.
Proof. vm_compute. reflexivity. Qed.

Lemma year_checked n :
  1000 <= Z.of_nat n <= 9999 ->
  shaped "dddd" (digits n) = true /\ unpad (digits n) = n.
Proof.
  intros Hn.
  assert (Hlt : (n < year_bound)%nat) by (pose proof year_bound_spec; lia).
  pose proof (below_forall
    (fun n => Nat.ltb n year_floor ||
              (shaped "dddd" (digits n) && Nat.eqb (unpad (digits n)) n))
    year_bound year_all n Hlt) as H.
  cbv beta in H. apply orb_prop in H. destruct H as [H|H].
  - apply Nat.ltb_lt in H. pose proof year_floor_spec. lia.
  - apply andb_prop in H. destruct H as [H1 H2].
    now apply Nat.eqb_eq in H2.
Qed.

Lemma shaped_app p1 : forall s1 p2 s2,
  shaped p1 s1 = true -> shaped p2 s2 = true ->
  shaped (p1 ++ p2)%string (s1 ++ s2)%string = true.
Proof.
  induction p1 as [|c p1 IH]; intros s1 p2 s2 H1 H2;
    destruct s1 as [|a s1]; try discriminate H1.
  - exact H2.
  - cbn [shaped String.append] in *.
    apply andb_prop in H1. destruct H1 as [Hc H1].
    now rewrite Hc, (IH _ _ _ H1 H2).
Qed.

Lemma shaped_length p : forall s,
  shaped p s = true -> String.length s = String.length p.
Proof.
  induction p as [|c p IH]; intros [|a s] H; try discriminate H.
  - reflexivity.
  - cbn in H. apply andb_prop in H. cbn. now rewrite (IH s (proj2 H)).
Qed.

Lemma append_same_length s1 : forall s2 t1 t2,
  String.length s1 = String.length s2 ->
  (s1 ++ t1)%string = (s2 ++ t2)%string -> s1 = s2 /\ t1 = t2.
Proof.
  induction s1 as [|a s1 IH]; intros [|b s2] t1 t2 Hl Heq;
    try discriminate Hl.
  - auto.
  - cbn in Heq. inversion Heq; subst. cbn in Hl.
    destruct (IH s2 t1 t2) as [-> ->]; auto.
Qed.

(** For a datetime in range, [get_iso_date] yields the twenty characters
    [YYYY-MM-DDTHH:MM:SSZ], every field in decimal digits, the two-digit
    ones zero-padded. *)
Theorem iso_date_shape (dt : datetime) :
  wire_datetime dt ->
  shaped "dddd-dd-ddTdd:dd:ddZ" (get_iso_date dt) = true /\
  String.length (get_iso_date dt) = 20%nat.
Proof.
  intros [Hy [Hmo [Hd [Hh [Hmi Hs]]]]].
  assert (H : shaped "dddd-dd-ddTdd:dd:ddZ" (get_iso_date dt) = true).
  { unfold get_iso_date.
    apply (shaped_app "dddd" _ "-dd-ddTdd:dd:ddZ"); [apply year_checked; lia|].
    apply (shaped_app "-" "-" "dd-ddTdd:dd:ddZ"); [reflexivity|].
    apply (shaped_app "dd" _ "-ddTdd:dd:ddZ"); [apply pad2_checked; lia|].
    apply (shaped_app "-" "-" "ddTdd:dd:ddZ"); [reflexivity|].
    apply (shaped_app "dd" _ "Tdd:dd:ddZ"); [apply pad2_checked; lia|].
    apply (shaped_app "T" "T" "dd:dd:ddZ"); [reflexivity|].
    apply (shaped_app "dd" _ ":dd:ddZ"); [apply pad2_checked; lia|].
    apply (shaped_app ":" ":" "dd:ddZ"); [reflexivity|].
    apply (shaped_app "dd" _ ":ddZ"); [apply pad2_checked; lia|].
    apply (shaped_app ":" ":" "ddZ"); [reflexivity|].
    apply (shaped_app "dd" _ "Z"); [apply pad2_checked; lia|reflexivity]. }
  split; [exact H|]. now rewrite (shaped_length _ _ H).
Qed.

Lemma iso_date_shape_witness :
  shaped "dddd-dd-ddTdd:dd:ddZ"
    (get_iso_date {| year := 2025; month := 10; day := 1;
                     hour := 0; minute := 0; second := 0 |}) = true.
Proof.
  apply (iso_date_shape {| year := 2025; month := 10; day := 1;
                           hour := 0; minute := 0; second := 0 |}).
  unfold wire_datetime. cbn. lia.
Defined.

Lemma year_inj n m :
  1000 <= Z.of_nat n <= 9999 -> 1000 <= Z.of_nat m <= 9999 ->
  digits n = digits m -> n = m.
Proof.
  intros Hn Hm Heq.
  rewrite <- (proj2 (year_checked n Hn)), <- (proj2 (year_checked m Hm)).
  now rewrite Heq.
Qed.

Lemma pad2_inj n m :
  (n < 100)%nat -> (m < 100)%nat -> pad 2 n = pad 2 m -> n = m.
Proof.
  intros Hn Hm Heq.
  rewrite <- (proj2 (pad2_checked n Hn)), <- (proj2 (pad2_checked m Hm)).
  now rewrite Heq.
Qed.

Lemma split_field p s1 s2 t1 t2 :
  shaped p s1 = true -> shaped p s2 = true ->
  (s1 ++ t1)%string = (s2 ++ t2)%string -> s1 = s2 /\ t1 = t2.
Proof.
  intros H1 H2. apply append_same_length.
  now rewrite (shaped_length _ _ H1), (shaped_length _ _ H2).
Qed.

(** [get_iso_date] loses nothing: two datetimes in range with the same
    text are the same datetime. *)
Theorem iso_date_injective (dt1 dt2 : datetime) :
  wire_datetime dt1 -> wire_datetime dt2 ->
  get_iso_date dt1 = get_iso_date dt2 -> dt1 = dt2.
Proof.
  intros [Hy1 [Hmo1 [Hd1 [Hh1 [Hmi1 Hs1]]]]] [Hy2 [Hmo2 [Hd2 [Hh2 [Hmi2 Hs2]]]]].
  destruct dt1 as [y1 mo1 d1 h1 mi1 s1], dt2 as [y2 mo2 d2 h2 mi2 s2].
  unfold get_iso_date. cbn [year month day hour minute second] in *.
  intros H.
  apply (split_field "dddd") in H; try (apply year_checked; lia).
  destruct H as [Ey H]. apply year_inj in Ey; try lia.
  apply (split_field "-" "-" "-") in H; try reflexivity. destruct H as [_ H].
  apply (split_field "dd") in H; try (apply pad2_checked; lia).
  destruct H as [Emo H]. apply pad2_inj in Emo; try lia.
  apply (split_field "-" "-" "-") in H; try reflexivity. destruct H as [_ H].
  apply (split_field "dd") in H; try (apply pad2_checked; lia).
  destruct H as [Ed H]. apply pad2_inj in Ed; try lia.
  apply (split_field "T" "T" "T") in H; try reflexivity. destruct H as [_ H].
  apply (split_field "dd") in H; try (apply pad2_checked; lia).
  destruct H as [Eh H]. apply pad2_inj in Eh; try lia.
  apply (split_field ":" ":" ":") in H; try reflexivity. destruct H as [_ H].
  apply (split_field "dd") in H; try (apply pad2_checked; lia).
  destruct H as [Emi H]. apply pad2_inj in Emi; try lia.
  apply (split_field ":" ":" ":") in H; try reflexivity. destruct H as [_ H].
  apply (split_field "dd") in H; try (apply pad2_checked; lia).
  destruct H as [Es _]. apply pad2_inj in Es; try lia.
  now subst.
Qed.

Lemma iso_date_injective_witness :
  {| year := 2025; month := 12; day := 1;
     hour := 0; minute := 0; second := 0 |} =
  {| year := 2000 + 25; month := 3 * 4; day := 1;
     hour := 0; minute := 0; second := 0 |}.
Proof.
  apply iso_date_injective; try reflexivity; unfold wire_datetime; cbn; lia.
Defined.

(** ** Further properties of the exporter *)

Lemma write_events_rows str evs :
  exists rows,
    fst (write_events str evs) = map EWriteRow rows /\ Forall two_fields rows.
Proof.
  induction evs as [|ev evs [rows [IH1 IH2]]].
  - exists []. split; [reflexivity|constructor].
  - cbn [write_events].
    destruct (py_get ev "name" (VStr "")) as [name|e].
    2:{ exists []. split; [reflexivity|constructor]. }
    rewrite bind_lift_ok.
    destruct (extract_event_datetime str ev) as [when|e].
    2:{ exists []. split; [reflexivity|constructor]. }
    rewrite bind_lift_ok, bind_emit. cbn [fst].
    exists ([name; when] :: rows). split.
    + cbn [map]. now rewrite IH1.
    + constructor; [reflexivity|exact IH2].
Qed.

(** What a turn of the loop leaves in the trace: debug prints, then rows
    of two fields. *)
Lemma loop_body_anatomy str resp u :
  exists dbg rows,
    fst (loop_body str resp u) = dbg ++ map EWriteRow rows /\
    only_prints dbg = true /\ Forall two_fields rows.
Proof.
  unfold loop_body.
  destruct (negb (status_code resp =? 200)).
  { exists [], []. repeat split; constructor. }
  unfold resp_json. destruct (json resp) as [data|].
  2:{ exists [], []. repeat split; constructor. }
  rewrite bind_lift_ok, bind_fst.
  set (dbg := fst (if eq_str u ROOT then debug_block resp data else IO.ret tt)).
  assert (Hdbg : only_prints dbg = true).
  { subst dbg. destruct (eq_str u ROOT); [apply debug_block_prints|reflexivity]. }
  destruct_scrutinee.
  2:{ exists dbg, []. split; [reflexivity|split; [exact Hdbg|constructor]]. }
  destruct (page_events data) as [evs|].
  2:{ exists dbg, []. split; [reflexivity|split; [exact Hdbg|constructor]]. }
  rewrite bind_lift_ok, bind_fst.
  destruct (write_events_rows str evs) as [rows [Hw Hr]]. rewrite Hw.
  exists dbg, rows. split; [|split; [exact Hdbg|exact Hr]].
  f_equal. destruct (snd (write_events str evs)); cbn; now rewrite app_nil_r.
Qed.

Lemma inner_prints t : only_prints t = true -> forallb inner t = true.
Proof.
  induction t as [|e t IH]; [reflexivity|].
  cbn. destruct e; try discriminate. exact IH.
Qed.

Lemma inner_writes rows : forallb inner (map EWriteRow rows) = true.
Proof. induction rows; [reflexivity|exact IHrows]. Qed.

Lemma loop_body_inner str resp u :
  forallb inner (fst (loop_body str resp u)) = true.
Proof.
  destruct (loop_body_anatomy str resp u) as [dbg [rows [-> [Hd _]]]].
  now rewrite forallb_app, (inner_prints _ Hd), inner_writes.
Qed.

Lemma paginate_inner str script : forall u p,
  forallb inner (fst (paginate str script u p)) = true.
Proof.
  induction script as [|resp rest IH]; intros u p;
    destruct (truthy u) eqn:Hu;
    try (now rewrite (paginate_stop _ _ _ _ Hu)).
  - now rewrite (paginate_nil _ _ _ Hu).
  - rewrite (paginate_cons _ _ _ _ _ Hu). cbn [fst forallb sent inner andb].
    rewrite forallb_app, loop_body_inner.
    destruct (snd (loop_body str resp u)); [apply IH|reflexivity].
Qed.

(** On every run, failing or not, the trace is the opening of the file,
    effects of the loop, and the closing of the file: the [with] statement
    of line 103 closes it once, last of all, also when an exception ends
    the export. *)
Theorem file_closed_on_every_exit (str : value -> string)
    (script : list response) (api_key city country : string)
    (start end_ : datetime) (out_csv : string) :
  exists body,
    fst (fetch_all_events_to_csv str script
           api_key city country start end_ out_csv)
    = EOpen out_csv :: body ++ [EClose] /\
    forallb inner body = true.
Proof.
  rewrite fetch_unfold. cbn zeta. cbn [fst].
  eexists (EWriteRow header :: _). split; [reflexivity|].
  cbn [forallb inner andb]. apply paginate_inner.
Qed.

Lemma rows_of_two_fields dbg rows :
  only_prints dbg = true -> Forall two_fields rows ->
  Forall two_fields (rows_of (dbg ++ map EWriteRow rows)).
Proof.
  intros Hd Hr. rewrite rows_of_app, rows_of_writes.
  now destruct (prints_quiet _ Hd) as [_ [-> _]].
Qed.

Lemma paginate_two_fields str script : forall u p,
  Forall two_fields (rows_of (fst (paginate str script u p))).
Proof.
  induction script as [|resp rest IH]; intros u p;
    destruct (truthy u) eqn:Hu;
    try (rewrite (paginate_stop _ _ _ _ Hu); constructor).
  - rewrite (paginate_nil _ _ _ Hu). constructor.
  - rewrite (paginate_cons _ _ _ _ _ Hu). cbn [fst].
    change (rows_of (sent u p :: ?t)) with (rows_of t).
    rewrite rows_of_app. apply Forall_app. split.
    + destruct (loop_body_anatomy str resp u) as [dbg [rows [-> [Hd Hr]]]].
      now apply rows_of_two_fields.
    + destruct (snd (loop_body str resp u)); [apply IH|constructor].
Qed.

(** Every row the export writes has exactly two fields, and the first row
    is the header, on every run. *)
Theorem rows_have_two_fields (str : value -> string)
    (script : list response) (api_key city country : string)
    (start end_ : datetime) (out_csv : string) :
  let rows := rows_of (fst (fetch_all_events_to_csv str script
                              api_key city country start end_ out_csv)) in
  Forall two_fields rows /\ exists later, rows = header :: later.
Proof.
  intros rows. subst rows. rewrite fetch_unfold. cbn zeta. cbn [fst].
  change (rows_of (EOpen out_csv :: EWriteRow header :: ?t))
    with (header :: rows_of t).
  split; [|eauto]. constructor; [reflexivity|].
  rewrite rows_of_app. apply Forall_app. split;
    [apply paginate_two_fields|constructor].
Qed.

Lemma debug_block_other resp data :
  (forall kvs, data <> VDict kvs) ->
  snd (debug_block resp data) = Raise AttributeError.
Proof.
  intros H. unfold debug_block. rewrite bind_emit. cbn [snd].
  destruct data; try reflexivity. now elim (H kvs).
Qed.

Lemma page_events_other data :
  (forall kvs, data <> VDict kvs) -> page_events data = Raise AttributeError.
Proof. intros H. destruct data; try reflexivity. now elim (H kvs). Qed.

Lemma loop_body_without_debug str resp u :
  snd (loop_body str resp u) = snd (loop_body str resp VNone) /\
  rows_of (fst (loop_body str resp u)) = rows_of (fst (loop_body str resp VNone)).
Proof.
  unfold loop_body.
  destruct (negb (status_code resp =? 200)); [auto|].
  unfold resp_json. destruct (json resp) as [data|]; [|auto].
  rewrite !bind_lift_ok. cbn [eq_str].
  destruct (eq_str u ROOT); [|auto].
  rewrite bind_ret, bind_fst, bind_snd, rows_of_app.
  destruct (prints_quiet _ (debug_block_prints resp data)) as [_ [Hr _]].
  rewrite Hr. cbn [app].
  destruct data as [| | | | | |kvs];
    try (rewrite debug_block_other, page_events_other by discriminate;
         split; reflexivity).
  now rewrite debug_block_dict.
Qed.

(** The debug block of lines 115-121 changes nothing but the prints: the
    outcome of a turn of the loop, the rows it writes and the requests it
    issues are the same whether or not the URL just requested is the root
    endpoint. *)
Theorem debug_block_is_inert (str : value -> string) (resp : response)
    (u u' : value) :
  snd (loop_body str resp u) = snd (loop_body str resp u') /\
  rows_of (fst (loop_body str resp u)) = rows_of (fst (loop_body str resp u')) /\
  requests_of (fst (loop_body str resp u)) =
    requests_of (fst (loop_body str resp u')).
Proof.
  destruct (loop_body_without_debug str resp u) as [H1 H2].
  destruct (loop_body_without_debug str resp u') as [H1' H2'].
  destruct (loop_body_quiet str resp u) as [Hq _].
  destruct (loop_body_quiet str resp u') as [Hq' _].
  now rewrite H1, H1', H2, H2', Hq, Hq'.
Qed.

(** A run over successful linked pages up to a response whose turn ends
    the loop, by an exception or by a falsy [next_url]. *)
Lemma paginate_chain_last str rest last rows_last (out : result value) init :
  forall linked u p,
  truthy u = true ->
  Forall2 (linked_page str) init linked ->
  snd (loop_body str last VNone) = out ->
  rows_of (fst (loop_body str last VNone)) = rows_last ->
  (forall v, out = Ok v -> truthy v = false) ->
  let run := paginate str (init ++ last :: rest) u p in
  snd run = match out with Ok _ => Ok tt | Raise e => Raise e end /\
  requests_of (fst run) =
    (u, if eq_str u ROOT then p else None) ::
    map (fun lr => (VStr (fst lr), None)) linked /\
  rows_of (fst run) = concat (map snd linked) ++ rows_last.
Proof.
  induction init as [|resp init IH]; intros linked u p Hu Hall Hout Hrows Hstop run;
    subst run; inversion Hall as [|? y ? l' Hpage Hrest]; subst; clear Hall.
  - cbn [app]. rewrite (paginate_cons _ _ _ _ _ Hu).
    destruct (loop_body_without_debug str last u) as [-> Hr].
    destruct (loop_body_quiet str last u) as [Hq _].
    cbn [fst snd].
    change (requests_of (sent u p :: ?t)) with
      ((u, if eq_str u ROOT then p else None) :: requests_of t).
    change (rows_of (sent u p :: ?t)) with (rows_of t).
    rewrite requests_of_app, rows_of_app, Hq, Hr. cbn [app map concat].
    destruct (snd (loop_body str last VNone)) as [v|e].
    + rewrite (paginate_stop str rest v None (Hstop v eq_refl)).
      cbn [fst snd requests_of rows_of flat_map]. now rewrite app_nil_r.
    + cbn [requests_of rows_of flat_map]. now rewrite app_nil_r.
  - destruct Hpage as [data [Hst [Hj [Hrows' Hnext]]]].
    destruct (carries_next_href _ _ Hnext) as [Hn Htr].
    cbn [app]. rewrite (paginate_cons _ _ _ _ _ Hu).
    destruct (loop_body_ok str resp u data _ _ Hst Hj Hrows' Hn) as [Hsnd Hr].
    destruct (loop_body_quiet str resp u) as [Hq _].
    rewrite Hsnd. cbn [fst snd].
    destruct (IH _ (VStr (fst y)) None Htr Hrest eq_refl eq_refl Hstop)
      as [H1 [H2 H3]].
    change (requests_of (sent u p :: ?t)) with
      ((u, if eq_str u ROOT then p else None) :: requests_of t).
    change (rows_of (sent u p :: ?t)) with (rows_of t).
    rewrite requests_of_app, rows_of_app, Hq, Hr, H1, H2, H3.
    rewrite no_params_either_way. cbn [app map concat].
    now rewrite app_assoc.
Qed.

Lemma fetch_chain_last str rest last rows_last (out : result value) init linked
    api_key city country start end_ out_csv :
  Forall2 (linked_page str) init linked ->
  snd (loop_body str last VNone) = out ->
  rows_of (fst (loop_body str last VNone)) = rows_last ->
  (forall v, out = Ok v -> truthy v = false) ->
  let run := fetch_all_events_to_csv str (init ++ last :: rest)
               api_key city country start end_ out_csv in
  snd run = match out with Ok _ => Ok tt | Raise e => Raise e end /\
  length (requests_of (fst run)) = S (length init) /\
  rows_of (fst run) = header :: concat (map snd linked) ++ rows_last.
Proof.
  intros Hall Hout Hrows Hstop run. subst run. rewrite fetch_unfold. cbn zeta.
  destruct (paginate_chain_last str rest last rows_last out init linked
              (VStr ROOT)
              (Some (get_params api_key (get_iso_date start)
                       (get_iso_date end_) city country 200 "date,asc"))
              truthy_root Hall Hout Hrows Hstop) as [H1 [H2 H3]].
  cbn [fst snd].
  change (requests_of (EOpen out_csv :: EWriteRow header :: ?t))
    with (requests_of t).
  change (rows_of (EOpen out_csv :: EWriteRow header :: ?t))
    with (header :: rows_of t).
  rewrite requests_of_app, rows_of_app, H1, H2, H3.
  cbn [requests_of rows_of flat_map]. rewrite !app_nil_r.
  split; [reflexivity|]. split; [|reflexivity].
  simpl length. now rewrite length_map, (Forall2_length Hall).
Qed.

(** No rollback: when a response after any number of successful linked
    pages has a status other than 200, the export raises the error of that
    response, having issued one request per response up to it, and the
    rows of all earlier pages stay written after the header. *)
Theorem later_failure_keeps_earlier_rows (str : value -> string)
    (init : list response) (linked : list (string * list (list value)))
    (bad : response) (rest : list response)
    (api_key city country : string) (start end_ : datetime)
    (out_csv : string) :
  Forall2 (linked_page str) init linked ->
  status_code bad <> 200 ->
  let run := fetch_all_events_to_csv str (init ++ bad :: rest)
               api_key city country start end_ out_csv in
  snd run = Raise (RuntimeError
    ("API error " ++ str_int (status_code bad) ++ ": " ++ text bad)%string) /\
  length (requests_of (fst run)) = S (length init) /\
  rows_of (fst run) = header :: concat (map snd linked).
Proof.
  intros Hall Hst.
  pose proof (fetch_chain_last str rest bad []
    (Raise (RuntimeError
       ("API error " ++ str_int (status_code bad) ++ ": " ++ text bad)%string))
    init linked api_key city country start end_ out_csv Hall) as H.
  rewrite app_nil_r in H. apply H.
  - unfold loop_body. apply Z.eqb_neq in Hst. now rewrite Hst.
  - unfold loop_body. apply Z.eqb_neq in Hst. now rewrite Hst.
  - discriminate.
Qed.

Lemma later_failure_keeps_earlier_rows_witness :
  let data1 := VDict [("_embedded", VDict [("events",
                         VList [VDict [("name", VStr "Show A")]])]);
                      ("_links", VDict [("next",
                         VDict [("href", VStr "https://example.org/page2")])])] in
  let page1 := {| status_code := 200; text := ""; url := ROOT; json := Some data1 |} in
  let page2 := {| status_code := 503; text := "busy"; url := ""; json := None |} in
  let dt := {| year := 2025; month := 10; day := 1;
               hour := 0; minute := 0; second := 0 |} in
  let run := fetch_all_events_to_csv no_text ([page1] ++ page2 :: [])
               "key" "Calgary" "CA" dt dt "events.csv" in
  snd run = Raise (RuntimeError "API error 503: busy") /\
  rows_of (fst run) = [header; [VStr "Show A"; VStr ""]].
Proof.
  intros data1 page1 page2 dt run.
  destruct (later_failure_keeps_earlier_rows no_text [page1]
              [("https://example.org/page2", [[VStr "Show A"; VStr ""]])]
              page2 [] "key" "Calgary" "CA" dt dt "events.csv")
    as [H1 [_ H3]].
  - constructor; [|constructor].
    exists data1. repeat split; try reflexivity. discriminate.
  - cbn. discriminate.
  - split; [exact H1|exact H3].
Defined.

Lemma write_events_fail str earlier ev later rows e :
  event_rows str earlier = Ok rows ->
  event_row str ev = Raise e ->
  write_events str (earlier ++ ev :: later) = (map EWriteRow rows, Raise e).
Proof.
  intros Hrows Hev.
  rewrite (write_events_after str _ _ _ (write_events_ok _ _ _ Hrows)).
  cbn [write_events]. unfold event_row in Hev.
  destruct (py_get ev "name" (VStr "")) as [name|e'].
  - rewrite bind_lift_ok. cbn [Res.bind] in Hev.
    destruct (extract_event_datetime str ev) as [when|e'']; [discriminate Hev|].
    cbn [Res.bind] in Hev. inversion Hev; subst.
    cbn [IO.bind IO.lift fst snd]. now rewrite app_nil_r.
  - cbn [Res.bind] in Hev. inversion Hev; subst.
    cbn [IO.bind IO.lift fst snd]. now rewrite app_nil_r.
Qed.

(** Rows are streamed: when an event of a page makes line 126 or 127
    raise (an event that is no mapping, a [dates] that is null), the
    export ends with that exception, and the rows of the earlier pages and
    of the earlier events of that page stay written. *)
Theorem bad_event_keeps_earlier_rows (str : value -> string)
    (init : list response) (linked : list (string * list (list value)))
    (page : response) (data : value) (earlier later : list value)
    (ev : value) (rows : list (list value)) (e : exn)
    (rest : list response) (api_key city country : string)
    (start end_ : datetime) (out_csv : string) :
  Forall2 (linked_page str) init linked ->
  status_code page = 200 -> json page = Some data ->
  page_events data = Ok (earlier ++ ev :: later) ->
  event_rows str earlier = Ok rows ->
  event_row str ev = Raise e ->
  let run := fetch_all_events_to_csv str (init ++ page :: rest)
               api_key city country start end_ out_csv in
  snd run = Raise e /\
  length (requests_of (fst run)) = S (length init) /\
  rows_of (fst run) = header :: concat (map snd linked) ++ rows.
Proof.
  intros Hall Hst Hj Hev Hrows Hbad.
  assert (Hbody : loop_body str page VNone = (map EWriteRow rows, Raise e)).
  { unfold loop_body, resp_json. rewrite Hst, Hj. cbn [Z.eqb Pos.eqb negb eq_str].
    rewrite bind_lift_ok, bind_ret, Hev, bind_lift_ok.
    rewrite (write_events_fail _ _ _ _ _ _ Hrows Hbad). reflexivity. }
  apply (fetch_chain_last str rest page rows (Raise e) init linked
           api_key city country start end_ out_csv Hall).
  - now rewrite Hbody.
  - rewrite Hbody. apply rows_of_writes.
  - discriminate.
Qed.

Lemma bad_event_keeps_earlier_rows_witness :
  let data := VDict [("_embedded", VDict [("events",
                        VList [VDict [("name", VStr "Show A")];
                               VDict [("name", VStr "Show B"); ("dates", VNone)];
                               VDict [("name", VStr "Show C")]])])] in
  let page := {| status_code := 200; text := ""; url := ROOT; json := Some data |} in
  let dt := {| year := 2025; month := 10; day := 1;
               hour := 0; minute := 0; second := 0 |} in
  let run := fetch_all_events_to_csv no_text ([] ++ page :: [])
               "key" "Calgary" "CA" dt dt "events.csv" in
  snd run = Raise AttributeError /\
  rows_of (fst run) = [header; [VStr "Show A"; VStr ""]].
Proof.
  intros data page dt run.
  destruct (bad_event_keeps_earlier_rows no_text [] [] page data
              [VDict [("name", VStr "Show A")]]
              [VDict [("name", VStr "Show C")]]
              (VDict [("name", VStr "Show B"); ("dates", VNone)])
              [[VStr "Show A"; VStr ""]] AttributeError
              [] "key" "Calgary" "CA" dt dt "events.csv")
    as [H1 [_ H3]]; try reflexivity.
  - constructor.
  - split; [exact H1|exact H3].
Defined.

(** A successful response whose JSON is not a mapping (a list, a string,
    null) raises [AttributeError], on the first page and on any later one,
    and writes no row of its own. *)
Theorem non_mapping_page_raises (str : value -> string)
    (init : list response) (linked : list (string * list (list value)))
    (page : response) (data : value) (rest : list response)
    (api_key city country : string) (start end_ : datetime)
    (out_csv : string) :
  Forall2 (linked_page str) init linked ->
  status_code page = 200 -> json page = Some data ->
  (forall kvs, data <> VDict kvs) ->
  let run := fetch_all_events_to_csv str (init ++ page :: rest)
               api_key city country start end_ out_csv in
  snd run = Raise AttributeError /\
  length (requests_of (fst run)) = S (length init) /\
  rows_of (fst run) = header :: concat (map snd linked).
Proof.
  intros Hall Hst Hj Hdata.
  assert (Hbody : loop_body str page VNone = ([], Raise AttributeError)).
  { unfold loop_body, resp_json. rewrite Hst, Hj. cbn [Z.eqb Pos.eqb negb eq_str].
    rewrite bind_lift_ok, bind_ret, (page_events_other _ Hdata). reflexivity. }
  pose proof (fetch_chain_last str rest page [] (Raise AttributeError)
    init linked api_key city country start end_ out_csv Hall) as H.
  rewrite app_nil_r in H. apply H.
  - now rewrite Hbody.
  - now rewrite Hbody.
  - discriminate.
Qed.

Lemma non_mapping_page_raises_witness :
  let page := {| status_code := 200; text := "[]"; url := ROOT;
                 json := Some (VList []) |} in
  let dt := {| year := 2025; month := 10; day := 1;
               hour := 0; minute := 0; second := 0 |} in
  let run := fetch_all_events_to_csv no_text ([] ++ page :: [])
               "key" "Calgary" "CA" dt dt "events.csv" in
  snd run = Raise AttributeError /\ rows_of (fst run) = [header].
Proof.
  intros page dt run.
  destruct (non_mapping_page_raises no_text [] [] page (VList []) []
              "key" "Calgary" "CA" dt dt "events.csv")
    as [H1 [_ H3]]; try reflexivity.
  - constructor.
  - intros kvs. discriminate.
  - split; [exact H1|exact H3].
Defined.

(** The loop tests the truth value of the href (line 108): a successful
    page whose [_links.next.href] is missing, null or the empty string ends
    the export normally, and the responses the transport still holds are
    never requested. *)
Theorem falsy_href_ends_export (str : value -> string)
    (init : list response) (linked : list (string * list (list value)))
    (page : response) (data : value) (rows : list (list value))
    (href : value) (rest : list response)
    (api_key city country : string) (start end_ : datetime)
    (out_csv : string) :
  Forall2 (linked_page str) init linked ->
  status_code page = 200 -> json page = Some data ->
  page_rows str data = Ok rows ->
  next_href data = Ok href -> truthy href = false ->
  let run := fetch_all_events_to_csv str (init ++ page :: rest)
               api_key city country start end_ out_csv in
  snd run = Ok tt /\
  length (requests_of (fst run)) = S (length init) /\
  rows_of (fst run) = header :: concat (map snd linked) ++ rows.
Proof.
  intros Hall Hst Hj Hrows Hn Hf.
  destruct (loop_body_ok str page VNone data rows href Hst Hj Hrows Hn)
    as [Hsnd Hr].
  apply (fetch_chain_last str rest page rows (Ok href) init linked
           api_key city country start end_ out_csv Hall Hsnd Hr).
  intros v Hv. inversion Hv; subst. exact Hf.
Qed.

Lemma falsy_href_ends_export_witness :
  let data := VDict [("_embedded", VDict [("events",
                        VList [VDict [("name", VStr "Show A")]])]);
                     ("_links", VDict [("next", VDict [("href", VStr "")])])] in
  let page := {| status_code := 200; text := ""; url := ROOT; json := Some data |} in
  let dt := {| year := 2025; month := 10; day := 1;
               hour := 0; minute := 0; second := 0 |} in
  let run := fetch_all_events_to_csv no_text ([] ++ page :: [page; page])
               "key" "Calgary" "CA" dt dt "events.csv" in
  snd run = Ok tt /\ length (requests_of (fst run)) = 1%nat.
Proof.
  intros data page dt run.
  destruct (falsy_href_ends_export no_text [] [] page data
              [[VStr "Show A"; VStr ""]] (VStr "") [page; page]
              "key" "Calgary" "CA" dt dt "events.csv")
    as [H1 [H2 _]]; try reflexivity.
  - constructor.
  - split; [exact H1|exact H2].
Defined.


Example rows_follow_events :
  fst (write_events no_text
         [VDict [("name", VStr "Show A")];
          VDict [("dates", VDict [("start", VDict [("localDate", VStr "2025-10-06")])])];
          VDict [("name", VStr "Show A")]])
  = [EWriteRow [VStr "Show A"; VStr ""];
     EWriteRow [VStr ""; VStr "2025-10-06T00:00:00"];
     EWriteRow [VStr "Show A"; VStr ""]].
Proof. reflexivity. Qed.

(** [main] runs the export for Calgary, CA, from 2025-10-01 to 2025-12-01
    with an empty API key, into [events.csv]; the message "Wrote
    events.csv" is printed, last of all, when the export ends normally,
    and an exception of the export leaves [main] as it is, without the
    message. *)
Theorem main_reports_only_success (str : value -> string)
    (script : list response) :
  let export := fetch_all_events_to_csv str script "" "Calgary" "CA"
                  {| year := 2025; month := 10; day := 1;
                     hour := 0; minute := 0; second := 0 |}
                  {| year := 2025; month := 12; day := 1;
                     hour := 0; minute := 0; second := 0 |} "events.csv" in
  let message := EPrint [VStr "Wrote events.csv"] in
  (snd export = Ok tt ->
   main str script = (fst export ++ [message], Ok tt)) /\
  (forall e, snd export = Raise e -> main str script = (fst export, Raise e)) /\
  exists later,
    requests_of (fst (main str script)) =
    (VStr ROOT,
     Some [("apikey", ""); ("city", "Calgary"); ("countryCode", "CA");
           ("startDateTime", "2025-10-01T00:00:00Z");
           ("endDateTime", "2025-12-01T00:00:00Z");
           ("size", "200"); ("sort", "date,asc")]%string) :: later.
Proof.
  intros export message.
  assert (Hmain : main str script =
            IO.bind export (fun _ => IO.emit message)) by reflexivity.
  split; [|split].
  - intros Hok. rewrite Hmain, (io_eta export), Hok. reflexivity.
  - intros e He. rewrite Hmain, (io_eta export), He. reflexivity.
  - destruct (paginate_requests str script (VStr ROOT)
      (Some (get_params "" "2025-10-01T00:00:00Z" "2025-12-01T00:00:00Z"
               "Calgary" "CA" 200 "date,asc")) truthy_root)
      as [hrefs [Hreq _]].
    rewrite eq_str_root in Hreq.
    exists (map (fun h => (h, None)) hrefs).
    rewrite Hmain, bind_fst, requests_of_app.
    match goal with |- (_ ++ requests_of ?t) = _ =>
      assert (Hlast : requests_of t = [])
        by (destruct (snd export); reflexivity)
    end.
    rewrite Hlast, app_nil_r. subst export. rewrite fetch_unfold.
    cbn zeta. cbn [fst].
    change (requests_of (EOpen "events.csv" :: EWriteRow header :: ?t))
      with (requests_of t).
    rewrite requests_of_app. cbn [requests_of flat_map]. rewrite app_nil_r.
    exact Hreq.
Qed.


Example null_events_raise_type_error :
  let page := {| status_code := 200; text := ""; url := ROOT;
                 json := Some (VDict [("_embedded", VDict [("events", VNone)])]) |} in
  let dt := {| year := 2025; month := 10; day := 1;
               hour := 0; minute := 0; second := 0 |} in
  snd (fetch_all_events_to_csv no_text [page] "key" "Calgary" "CA" dt dt "events.csv")
  = Raise TypeError.
Proof. reflexivity. Qed.

(** ** Rows of the events of a page *)






Lemma loop_body_rows str page data evs :
  status_code page = 200 -> json page = Some data ->
  page_events data = Ok evs ->
  rows_of (fst (loop_body str page VNone)) = rows_of (fst (write_events str evs)).
Proof.
  intros Hst Hj Hev. unfold loop_body, resp_json.
  rewrite Hst, Hj. cbn [Z.eqb Pos.eqb negb eq_str].
  rewrite bind_lift_ok, bind_ret, Hev, bind_lift_ok, bind_fst, rows_of_app.
  destruct (snd (write_events str evs)); cbn [IO.lift fst rows_of flat_map];
    now rewrite app_nil_r.
Qed.

(** The rows of a run up to and including those of the page that follows
    any number of successful linked pages. *)
Lemma paginate_rows_prefix str page rest init : forall linked u p,
  truthy u = true ->
  Forall2 (linked_page str) init linked ->
  exists more,
    rows_of (fst (paginate str (init ++ page :: rest) u p)) =
    concat (map snd linked) ++ rows_of (fst (loop_body str page VNone)) ++ more.
Proof.
  induction init as [|resp init IH]; intros linked u p Hu Hall;
    inversion Hall as [|? y ? l' Hpage Hrest]; subst; clear Hall.
  - cbn [app]. rewrite (paginate_cons _ _ _ _ _ Hu). cbn [fst].
    change (rows_of (sent u p :: ?t)) with (rows_of t).
    rewrite rows_of_app.
    destruct (loop_body_without_debug str page u) as [_ ->].
    cbn [map concat app]. eauto.
  - destruct Hpage as [data [Hst [Hj [Hrows Hnext]]]].
    destruct (carries_next_href _ _ Hnext) as [Hn Htr].
    cbn [app]. rewrite (paginate_cons _ _ _ _ _ Hu).
    destruct (loop_body_ok str resp u data _ _ Hst Hj Hrows Hn) as [Hsnd Hr].
    rewrite Hsnd. cbn [fst].
    destruct (IH _ (VStr (fst y)) None Htr Hrest) as [more Hmore].
    change (rows_of (sent u p :: ?t)) with (rows_of t).
    rewrite rows_of_app, Hr, Hmore. cbn [map concat].
    exists more. now rewrite <- app_assoc.
Qed.

(** C5: an event record with neither a full timestamp nor a local date
    (each key missing, or holding a falsy value such as the empty string)
    gets the empty string from [extract_event_datetime], and the exporter
    does not skip it: when the events of a successful page, reached after
    any number of successful linked pages, hold that event after events
    that raise nothing, the rows of the export are the header, the rows of
    the pages before, the rows of the events before, and then the row of
    that event, its name next to an empty date-time field. *)
Theorem undated_event_still_written (str : value -> string) (ev : value)
    (kvs : list (string * value))
    (init : list response) (linked : list (string * list (list value)))
    (page : response) (pkvs emb : list (string * value))
    (earlier later : list value) (rows : list (list value))
    (rest : list response) (api_key city country : string)
    (start end_ : datetime) (out_csv : string) :
  start_of ev = Ok (VDict kvs) ->
  truthy (field "dateTime" kvs) = false ->
  truthy (field "localDate" kvs) = false ->
  Forall2 (linked_page str) init linked ->
  status_code page = 200 ->
  json page = Some (VDict pkvs) ->
  lookup "_embedded" pkvs = Some (VDict emb) ->
  lookup "events" emb = Some (VList (earlier ++ ev :: later)) ->
  event_rows str earlier = Ok rows ->
  let run := fetch_all_events_to_csv str (init ++ page :: rest)
               api_key city country start end_ out_csv in
  extract_event_datetime str ev = Ok (VStr "") /\
  exists name more,
    py_get ev "name" (VStr "") = Ok name /\
    rows_of (fst run) =
      header :: concat (map snd linked) ++ rows ++ [name; VStr ""] :: more.
Proof.
  intros Hs Hdt Hld Hall Hst Hj Hemb Hevs Hrows run.
  assert (Hx : extract_event_datetime str ev = Ok (VStr "")).
  { now rewrite (extract_from_start str ev kvs Hs), Hdt, Hld. }
  split; [exact Hx|].
  destruct ev as [| | | | | |evkvs]; try discriminate Hs.
  assert (Hpage : page_events (VDict pkvs) = Ok (earlier ++ VDict evkvs :: later)).
  { unfold page_events. cbn [py_get Res.bind]. rewrite Hemb.
    cbn [py_get Res.bind]. now rewrite Hevs. }
  assert (Hw : rows_of (fst (write_events str (earlier ++ VDict evkvs :: later)))
               = rows ++ [name_of evkvs; VStr ""] ::
                 rows_of (fst (write_events str later))).
  { rewrite (write_events_after str _ _ _ (write_events_ok _ _ _ Hrows)).
    cbn [fst write_events].
    rewrite py_get_dict, bind_lift_ok, Hx, bind_lift_ok, bind_emit.
    cbn [fst]. rewrite rows_of_app, rows_of_writes. reflexivity. }
  destruct (paginate_rows_prefix str page rest init linked (VStr ROOT)
              (Some (get_params api_key (get_iso_date start)
                       (get_iso_date end_) city country 200 "date,asc"))
              truthy_root Hall) as [more Hmore].
  rewrite (loop_body_rows str page _ _ Hst Hj Hpage), Hw in Hmore.
  exists (name_of evkvs),
         (rows_of (fst (write_events str later)) ++ more).
  split; [reflexivity|].
  subst run. rewrite fetch_unfold. cbn zeta. cbn [fst].
  change (rows_of (EOpen out_csv :: EWriteRow header :: ?t))
    with (header :: rows_of t).
  rewrite rows_of_app, Hmore. cbn [rows_of flat_map]. rewrite app_nil_r.
  now rewrite <- !app_assoc.
Qed.

Lemma undated_event_still_written_witness :
  let ev := VDict [("name", VStr "Show G")] in
  let dated := VDict [("name", VStr "Show A");
                      ("dates", VDict [("start",
                         VDict [("dateTime", VStr "2025-10-05T19:00:00Z")])])] in
  let page := {| status_code := 200; text := ""; url := ROOT;
                 json := Some (VDict [("_embedded",
                   VDict [("events", VList ([dated] ++ ev :: [dated]))])]) |} in
  let dt := {| year := 2025; month := 10; day := 1;
               hour := 0; minute := 0; second := 0 |} in
  let run := fetch_all_events_to_csv no_text ([] ++ page :: [])
               "key" "Calgary" "CA" dt dt "events.csv" in
  extract_event_datetime no_text ev = Ok (VStr "") /\
  exists more,
    rows_of (fst run) =
      header :: [VStr "Show A"; VStr "2025-10-05T19:00:00Z"] ::
      [VStr "Show G"; VStr ""] :: more.
Proof.
  intros ev dated page dt run.
  destruct (undated_event_still_written no_text ev [] [] [] page
              [("_embedded", VDict [("events", VList ([dated] ++ ev :: [dated]))])]
              [("events", VList ([dated] ++ ev :: [dated]))]
              [dated] [dated]
              [[VStr "Show A"; VStr "2025-10-05T19:00:00Z"]]
              [] "key" "Calgary" "CA" dt dt "events.csv")
    as [H1 [name [more [Hn H2]]]]; try reflexivity.
  - constructor.
  - split; [exact H1|]. exists more. inversion Hn; subst. exact H2.
Defined.
